(** * DocFxMarkdownGen: grouping policy, cross-reference resolver and the
      reference-dependent parts of the page renderer.

    A shallow embedding of [docfx_markdown_gen_log.py].  Python [str] values
    are [string]s whose characters are code points below 256; the
    per-namespace count dictionary is a [gmap string Z]; a raised exception
    is the [Raise] branch of [result]; the [str_builder] list the renderer
    appends to is threaded explicitly.  Logging calls have no effect on any
    returned value and are left out. *)

From Stdlib Require Import ZArith Ascii String List Lia Sorted.
From stdpp Require Import base decidable option list gmap strings.

Local Open Scope string_scope.
Local Open Scope Z_scope.
Local Open Scope list_scope.

(** ** Python string primitives *)

Module PyStr.

(** [c in s] for a one-character needle. *)
Fixpoint contains (c : ascii) (s : string) : bool :=
  match s with
  | EmptyString => false
  | String a s' => if Ascii.eqb a c then true else contains c s'
  end.

Fixpoint find_index (c : ascii) (s : string) : option nat :=
  match s with
  | EmptyString => None
  | String a s' => if Ascii.eqb a c then Some O else S <$> find_index c s'
  end.

Fixpoint rfind_index (c : ascii) (s : string) : option nat :=
  match s with
  | EmptyString => None
  | String a s' =>
      match rfind_index c s' with
      | Some i => Some (S i)
      | None => if Ascii.eqb a c then Some O else None
      end
  end.

(** [s.find(c)] and [s.rfind(c)]: the index, or [-1] when [c] is absent. *)
Definition find (c : ascii) (s : string) : Z :=
  match find_index c s with Some i => Z.of_nat i | None => -1 end.

Definition rfind (c : ascii) (s : string) : Z :=
  match rfind_index c s with Some i => Z.of_nat i | None => -1 end.

(** [s[:n]] and [s[n:]] for an index [n >= 0]. *)
Fixpoint take (n : nat) (s : string) : string :=
  match n, s with
  | S n', String a s' => String a (take n' s')
  | _, _ => EmptyString
  end.

Fixpoint drop (n : nat) (s : string) : string :=
  match n, s with
  | S n', String _ s' => drop n' s'
  | _, _ => s
  end.

(** [s.replace(old, new)] for a one-character [old]. *)
Fixpoint replace (old : ascii) (new : string) (s : string) : string :=
  match s with
  | EmptyString => EmptyString
  | String a s' =>
      if Ascii.eqb a old then new +:+ replace old new s'
      else String a (replace old new s')
  end.

(** [str.lower] on code points below 256: 'A'..'Z' and the Latin-1
    capitals 192..222 (except the multiplication sign 215) move up by 32. *)
Definition lower_char (a : ascii) : ascii :=
  let n := nat_of_ascii a in
  if ((65 <=? n)%nat && (n <=? 90)%nat)
     || ((192 <=? n)%nat && (n <=? 222)%nat && negb (n =? 215)%nat)
  then ascii_of_nat (n + 32) else a.

Fixpoint lower (s : string) : string :=
  match s with
  | EmptyString => EmptyString
  | String a s' => String (lower_char a) (lower s')
  end.

(** ["".join(parts)] *)
Definition join (parts : list string) : string :=
  foldr String.append "" parts.

(** [sep.join(parts)] *)
Fixpoint join_with (sep : string) (parts : list string) : string :=
  match parts with
  | [] => ""
  | [p] => p
  | p :: rest => p +:+ sep +:+ join_with sep rest
  end.

End PyStr.

(** ** Exceptions *)

Inductive exn : Type :=
  | ValueError (msg : string).

Inductive result (A : Type) : Type :=
  | Ok (a : A)
  | Raise (e : exn).
Arguments Ok {A} a.
Arguments Raise {A} e.

#[global] Instance result_ret : MRet result := fun A a => Ok a.

#[global] Instance result_bind : MBind result := fun A B k r =>
  match r with
  | Ok a => k a
  | Raise e => Raise e
  end.

(** ** Data classes *)

(** The [Parameter] data class ([Parameter] is a reserved word here). *)
Record ParameterInfo : Type := mkParameterInfo {
  p_id : string;
  p_type : string;
  p_description : option string }.

Record TypeParameter : Type := mkTypeParameter {
  tp_id : string;
  tp_description : string }.

Record SyntaxReturn : Type := mkSyntaxReturn {
  r_type : string;
  r_description : option string }.

Record Syntax : Type := mkSyntax {
  content : string;
  content_vb : string;
  parameters : option (list ParameterInfo);
  type_parameters : option (list TypeParameter);
  return_value : option SyntaxReturn }.

Record ThrowsException : Type := mkThrowsException {
  e_type : string;
  e_comment_id : string;
  e_description : string }.

(** [Item]; the [source] field (repository coordinates of the declaration)
    is read only by [source_link] and is not carried here. *)
Record Item : Type := mkItem {
  uid : string;
  comment_id : string;
  item_id : string;
  parent : string;
  children : list string;
  langs : list string;
  definition : string;
  name : string;
  name_with_type : string;
  full_name : string;
  type : string;
  assemblies : list string;
  namespace : string;
  summary : option string;
  syntax : option Syntax;
  inheritance : option (list string);
  derived_classes : option (list string);
  implements : option (list string);
  extension_methods : option (list string);
  exceptions : option (list ThrowsException) }.

Record ConfigTypesGrouping : Type := mkConfigTypesGrouping {
  enabled : bool;
  min_count : Z }.

Record Config : Type := mkConfig {
  yaml_path : string;
  output_path : string;
  index_slug : string;
  types_grouping : option ConfigTypesGrouping;
  br_newline : string;
  force_newline : bool;
  forced_newline : string;
  rewrite_interlinks : bool }.

(** ** Utility functions *)

Definition get_type_path_part (type_name : string) : result string :=
  if decide (type_name = "Class") then Ok "Classes"
  else if decide (type_name = "Struct") then Ok "Structs"
  else if decide (type_name = "Interface") then Ok "Interfaces"
  else if decide (type_name = "Enum") then Ok "Enums"
  else if decide (type_name = "Delegate") then Ok "Delegates"
  else Raise (ValueError ("Unknown type: " +:+ type_name)).

Definition html_escape (text : string) : string :=
  PyStr.replace ">" "&gt;" (PyStr.replace "<" "&lt;" text).

Definition file_escape (text : string) : string :=
  PyStr.replace " " "%20" (PyStr.replace ">" "`" (PyStr.replace "<" "`" text)).

(** ** Grouping policy *)

(** [type_counts] is the dictionary [count_types] returns.  [main] passes
    [None] in its place only when grouping is absent or disabled, and then
    neither this function nor the page renderer reads it. *)
Definition namespace_has_type_grouping
    (namespace : string) (type_counts : gmap string Z) (config : Config) : bool :=
  match types_grouping config with
  | None => false
  | Some tg =>
      if negb (enabled tg) then false
      else
        match type_counts !! namespace with
        | Some c => (c >=? min_count tg)
        | None => false
        end
  end.

(** [item.type in ["Class", "Interface", "Enum", "Struct", "Delegate"]] *)
Definition is_type_kind (t : string) : bool :=
  bool_decide (t ∈ ["Class"; "Interface"; "Enum"; "Struct"; "Delegate"]).

(** One iteration of the loop of [count_types]. *)
Definition count_types_step (type_counts : gmap string Z) (item : Item)
    : gmap string Z :=
  if is_type_kind (type item) then
    match type_counts !! namespace item with
    | Some c => <[namespace item := c + 1]> type_counts
    | None => <[namespace item := 1]> type_counts
    end
  else type_counts.

Definition count_types (items : list Item) : gmap string Z :=
  foldl count_types_step ∅ items.

(** ** Cross-reference resolver *)

(** [next((i for i in items if i.uid == u), None)] *)
Definition find_by_uid (items : list Item) (u : string) : option Item :=
  List.find (fun i => bool_decide (uid i = u)) items.

(** The rendering [f"`{uid.replace('{', '<').replace('}', '>')}`"] that
    [create_link] returns for an unresolved reference and for a member whose
    parent is missing. *)
Definition inert_code_span (uid : string) : string :=
  "`" +:+ PyStr.replace "}" ">" (PyStr.replace "{" "<" uid) +:+ "`".

(** The lookup that opens [create_link]: the direct scan, then the retry for
    a single type argument. *)
Definition resolve_reference (items : list Item) (uid : string) : option Item :=
  let reference := find_by_uid items uid in
  match reference with
  | Some r => Some r
  | None =>
      if PyStr.contains "{" uid then
        let start_idx := PyStr.find "{" uid in
        let end_idx := PyStr.rfind "}" uid in
        if negb (start_idx =? -1)%Z && negb (end_idx =? -1)%Z then
          let replaced :=
            PyStr.take (Z.to_nat start_idx) uid +:+ "`1"
              +:+ PyStr.drop (Z.to_nat (end_idx + 1)) uid in
          find_by_uid items replaced
        else None
      else None
  end.

Definition create_link
    (uid : string) (link_from_grouped_type : bool) (items : list Item)
    (namespace_has_type_grouping_func : string -> bool) (config : Config)
    (name_only : bool) (link_from_index : bool) : result string :=
  match resolve_reference items uid with
  | None => Ok (inert_code_span uid)
  | Some reference =>
      let name_ := if name_only then name reference else full_name reference in
      let dots :=
        if link_from_index then "./"
        else if link_from_grouped_type then "../../" else "../" in
      let extension := if link_from_index then ".md" else "" in
      if is_type_kind (type reference) then
        let has_grouping := namespace_has_type_grouping_func (namespace reference) in
        if has_grouping then
          part ← get_type_path_part (type reference);
          Ok ("[" +:+ html_escape name_ +:+ "]("
                +:+ file_escape (dots +:+ namespace reference +:+ "/" +:+ part
                                   +:+ "/" +:+ name reference +:+ extension)
                +:+ ")")
        else
          Ok ("[" +:+ html_escape name_ +:+ "]("
                +:+ file_escape (dots +:+ namespace reference +:+ "/"
                                   +:+ name reference +:+ extension)
                +:+ ")")
      else if decide (type reference = "Namespace") then
        if rewrite_interlinks config then
          if link_from_index then
            Ok ("[" +:+ html_escape name_ +:+ "]("
                  +:+ file_escape (dots +:+ name reference +:+ "/"
                                     +:+ name reference +:+ extension)
                  +:+ ")")
          else
            Ok ("[" +:+ html_escape name_ +:+ "]("
                  +:+ file_escape (dots +:+ name reference) +:+ ")")
        else
          Ok ("[" +:+ html_escape name_ +:+ "]("
                +:+ file_escape (dots +:+ name reference +:+ "/"
                                   +:+ name reference +:+ extension)
                +:+ ")")
      else
        match find_by_uid items (parent reference) with
        | None => Ok (inert_code_span uid)
        | Some parent =>
            let anchor :=
              PyStr.replace "?" ""
                (PyStr.replace ")" ""
                   (PyStr.replace "(" "" (PyStr.lower (name reference)))) in
            path_part ←
              (if namespace_has_type_grouping_func (namespace parent)
               then part ← get_type_path_part (type parent); Ok ("/" +:+ part)
               else Ok "");
            Ok ("[" +:+ html_escape name_ +:+ "]("
                  +:+ file_escape (dots +:+ namespace reference +:+ path_part
                                     +:+ "/" +:+ name parent +:+ extension)
                  +:+ "#" +:+ anchor +:+ ")")
        end
  end.

(** ** Page renderer: the reference-dependent parts of
       [generate_type_markdown] *)

Definition nl : string := String "010"%char "".

(** [posixpath.join(a, *p)] *)
Module OsPath.

Definition starts_with_sep (s : string) : bool :=
  match s with
  | String a _ => Ascii.eqb a "/"
  | EmptyString => false
  end.

Fixpoint ends_with_sep (s : string) : bool :=
  match s with
  | EmptyString => false
  | String a EmptyString => Ascii.eqb a "/"
  | String _ s' => ends_with_sep s'
  end.

Definition join_step (path b : string) : string :=
  if starts_with_sep b then b
  else if bool_decide (path = "") || ends_with_sep path then path +:+ b
  else path +:+ "/" +:+ b.

Definition join (a : string) (p : list string) : string :=
  foldl join_step a p.

End OsPath.

Section TypePage.

Variable config : Config.
Variable item : Item.
Variable items : list Item.
Variable type_counts : gmap string Z.

(** The truth value of the [and] chain that opens the function. *)
Definition is_grouped_type : bool :=
  match types_grouping config with
  | None => false
  | Some tg =>
      enabled tg
      && match type_counts !! namespace item with
         | Some c => (c >=? min_count tg)
         | None => false
         end
  end.

Definition nht_func (namespace : string) : bool :=
  namespace_has_type_grouping namespace type_counts config.

(** [create_link(ref, is_grouped_type, items, nht_func, config)] *)
Definition page_link (ref : string) : result string :=
  create_link ref is_grouped_type items nht_func config false false.

(** The loop
    [for i, r in enumerate(refs): append(create_link(r, ...));
       if i != len(refs) - 1: append(", ")]
    started at index [i] on the remaining entries. *)
Fixpoint append_links (i : nat) (total : nat) (refs : list string)
    (str_builder : list string) : result (list string) :=
  match refs with
  | [] => Ok str_builder
  | r :: rest =>
      link ← page_link r;
      let str_builder := str_builder ++ [link] in
      let str_builder :=
        if bool_decide (Z.of_nat i ≠ Z.of_nat total - 1)
        then str_builder ++ [", "] else str_builder in
      append_links (S i) total rest str_builder
  end.

Definition details_open : string :=
  nl +:+ "<details>" +:+ nl +:+ "<summary>Expand</summary>" +:+ nl +:+ nl.

Definition details_close : string := nl +:+ "</details>" +:+ nl.

(** The "Derived classes" block. *)
Definition render_derived_classes (str_builder : list string)
    : result (list string) :=
  match derived_classes item with
  | None | Some [] => Ok str_builder
  | Some derived =>
      let str_builder := str_builder ++ ["**Derived:**  " +:+ nl] in
      let str_builder :=
        if (8 <? length derived)%nat then str_builder ++ [details_open]
        else str_builder in
      str_builder ← append_links 0 (length derived) derived str_builder;
      let str_builder :=
        if (8 <? length derived)%nat then str_builder ++ [details_close]
        else str_builder in
      Ok (str_builder ++ [nl +:+ nl])
  end.

(** The "Implements" block. *)
Definition render_implements (str_builder : list string)
    : result (list string) :=
  match implements item with
  | None | Some [] => Ok str_builder
  | Some impls =>
      let str_builder := str_builder ++ ["**Implements:**  " +:+ nl] in
      let str_builder :=
        if (8 <? length impls)%nat then str_builder ++ [details_open]
        else str_builder in
      str_builder ← append_links 0 (length impls) impls str_builder;
      let str_builder :=
        if (8 <? length impls)%nat then str_builder ++ [details_close]
        else str_builder in
      Ok (str_builder ++ [nl +:+ nl])
  end.

(** The test of the inner loop of the "Extension methods" block:
    [i.syntax and i.syntax.parameters and
     i.syntax.parameters[0].type + '.' + i.full_name[:k] == ext_method]
    with [k] the index of the first '(' of [i.full_name], or its length. *)
Definition matches_extension_method (ext_method : string) (i : Item) : bool :=
  match syntax i with
  | None => false
  | Some sx =>
      match parameters sx with
      | None | Some [] => false
      | Some (p0 :: _) =>
          let k :=
            if PyStr.contains "(" (full_name i)
            then Z.to_nat (PyStr.find "(" (full_name i))
            else String.length (full_name i) in
          bool_decide
            (p_type p0 +:+ "." +:+ PyStr.take k (full_name i) = ext_method)
      end
  end.

(** The bullet appended for one entry of [item.extension_methods]. *)
Definition extension_method_line (ext_method : string) : result string :=
  match List.find (matches_extension_method ext_method) items with
  | None =>
      Ok ("* " +:+ PyStr.replace "}" "&#125;"
                     (PyStr.replace "{" "&#123;" ext_method) +:+ nl)
  | Some method =>
      link ← page_link (uid method);
      Ok ("* " +:+ link +:+ nl)
  end.

Fixpoint append_extension_methods (exts : list string)
    (str_builder : list string) : result (list string) :=
  match exts with
  | [] => Ok str_builder
  | ext_method :: rest =>
      line ← extension_method_line ext_method;
      append_extension_methods rest (str_builder ++ [line])
  end.

(** The "Extension methods" block. *)
Definition render_extension_methods (str_builder : list string)
    : result (list string) :=
  match extension_methods item with
  | None => Ok str_builder
  | Some exts =>
      if (1 <? length exts)%nat then
        append_extension_methods exts
          (str_builder ++ ["## Extension Methods" +:+ nl])
      else Ok str_builder
  end.

(** [item.name.replace('<', '`').replace('>', '`') + ".md"] *)
Definition page_file_name : string :=
  PyStr.replace ">" "`" (PyStr.replace "<" "`" (name item)) +:+ ".md".

(** The path the page is written to. *)
Definition type_output_path : result string :=
  if is_grouped_type then
    part ← get_type_path_part (type item);
    Ok (OsPath.join (output_path config)
          [namespace item; part; page_file_name])
  else
    Ok (OsPath.join (output_path config) [namespace item; page_file_name]).

End TypePage.

(** ** Member listings *)

Definition get_properties (items : list Item) (uid : string) : list Item :=
  List.filter
    (fun i => bool_decide (parent i = uid) && bool_decide (type i = "Property"))
    items.

Definition get_fields (items : list Item) (uid : string) : list Item :=
  List.filter
    (fun i => bool_decide (parent i = uid) && bool_decide (type i = "Field"))
    items.

Definition get_methods (items : list Item) (uid : string) : list Item :=
  List.filter
    (fun i => bool_decide (parent i = uid) && bool_decide (type i = "Method"))
    items.

Definition get_events (items : list Item) (uid : string) : list Item :=
  List.filter
    (fun i => bool_decide (parent i = uid) && bool_decide (type i = "Event"))
    items.

(** ** Page renderer: inheritance chain and the Implements recap *)

(** The loop of the "Inheritance" block, started at index [i]:
    [append(create_link(r, ...)); if i != len(refs) - 1: append(" -> ")]. *)
Fixpoint append_inheritance_links (config : Config) (item : Item)
    (items : list Item) (type_counts : gmap string Z) (i total : nat)
    (refs : list string) (str_builder : list string) : result (list string) :=
  match refs with
  | [] => Ok str_builder
  | r :: rest =>
      link ← page_link config item items type_counts r;
      let str_builder := str_builder ++ [link] in
      let str_builder :=
        if bool_decide (Z.of_nat i ≠ Z.of_nat total - 1)
        then str_builder ++ [" -> "] else str_builder in
      append_inheritance_links config item items type_counts (S i) total rest
        str_builder
  end.

(** The "Inheritance hierarchy" block. *)
Definition render_inheritance (config : Config) (item : Item)
    (items : list Item) (type_counts : gmap string Z)
    (str_builder : list string) : result (list string) :=
  match inheritance item with
  | None => Ok str_builder
  | Some chain =>
      if (1 <? length chain)%nat then
        str_builder ←
          append_inheritance_links config item items type_counts 0
            (length chain) chain (str_builder ++ ["**Inheritance:** "]);
        Ok (str_builder ++ [nl +:+ nl])
      else Ok str_builder
  end.

Fixpoint append_implements_bullets (config : Config) (item : Item)
    (items : list Item) (type_counts : gmap string Z)
    (impls : list string) (str_builder : list string) : result (list string) :=
  match impls with
  | [] => Ok str_builder
  | impl :: rest =>
      link ← page_link config item items type_counts impl;
      append_implements_bullets config item items type_counts rest
        (str_builder ++ ["* " +:+ link +:+ nl])
  end.

(** The "Implements section" that follows the member sections. *)
Definition render_implements_section (config : Config) (item : Item)
    (items : list Item) (type_counts : gmap string Z)
    (str_builder : list string) : result (list string) :=
  match implements item with
  | None | Some [] => Ok str_builder
  | Some impls =>
      append_implements_bullets config item items type_counts impls
        (str_builder ++ [nl +:+ "## Implements" +:+ nl +:+ nl])
  end.

(** ** Index page *)

Definition version_string : string := "1.0.0".

(** [sorted(l, key=lambda i: i.name)]: the stable sort by name, strings
    compared character by character. *)
Fixpoint insert_by_name (x : Item) (l : list Item) : list Item :=
  match l with
  | [] => [x]
  | y :: l' =>
      if String.leb (name x) (name y) then x :: y :: l'
      else y :: insert_by_name x l'
  end.

Definition sorted_by_name (l : list Item) : list Item :=
  foldr insert_by_name [] l.

(** The bullet of one namespace on the index page. *)
Definition index_line (config : Config) (items : list Item)
    (namespace_item : Item) : result string :=
  link ← create_link (uid namespace_item) false items (fun _ => false) config
           false true;
  Ok ("* " +:+ html_escape link +:+ nl).

Fixpoint append_index_lines (config : Config) (items : list Item)
    (namespaces : list Item) (str_builder : list string)
    : result (list string) :=
  match namespaces with
  | [] => Ok str_builder
  | namespace_item :: rest =>
      line ← index_line config items namespace_item;
      append_index_lines config items rest (str_builder ++ [line])
  end.

(** The pieces [generate_index_markdown] joins and writes to
    [os.path.join(config.output_path, "index.md")]. *)
Definition generate_index_markdown (config : Config) (items : list Item)
    : result (list string) :=
  let str_builder :=
    [ "---" +:+ nl; "title: Index" +:+ nl; "sidebar_label: Index" +:+ nl;
      "sidebar_position: 0" +:+ nl; "slug: " +:+ index_slug config +:+ nl;
      "---" +:+ nl; "# API Index" +:+ nl; "## Namespaces" +:+ nl ] in
  str_builder ←
    append_index_lines config items
      (sorted_by_name
         (List.filter (fun i => bool_decide (type i = "Namespace")) items))
      str_builder;
  Ok (str_builder
        ++ [ nl +:+ "---" +:+ nl;
             "Generated using [DocFxMarkdownGen](https://github.com/Jan0660/DocFxMarkdownGen) v"
               +:+ version_string +:+ "." +:+ nl ]).

(** ** Namespace page *)

(** The heading [add_type_section] appends for one type of the namespace:
    ["### " + html_escape(create_link(type_item.uid, False, items,
    lambda _: False, config, name_only=True)) + "\n"].  The summary that
    follows it goes through the markup substitutions of [process_summary],
    which are not modelled. *)
Definition namespace_type_heading (config : Config) (items : list Item)
    (type_item : Item) : result string :=
  link ← create_link (uid type_item) false items (fun _ => false) config
           true false;
  Ok ("### " +:+ html_escape link +:+ nl).

(** ** Definitions used to state the properties *)

(** The number of items of namespace [n] whose kind is one of Class,
    Interface, Enum, Struct, Delegate. *)
Definition groupable_count (items : list Item) (n : string) : Z :=
  Z.of_nat (length (List.filter
    (fun i => is_type_kind (type i) && bool_decide (namespace i = n)) items)).


(** Character-wise reading of "every '{' replaced by '<' and every '}'
    replaced by '>'". *)
Definition brace_to_angle (a : ascii) : ascii :=
  if Ascii.eqb a "{" then "<"%char
  else if Ascii.eqb a "}" then ">"%char else a.

Fixpoint map_chars (f : ascii -> ascii) (s : string) : string :=
  match s with
  | EmptyString => EmptyString
  | String a s' => String (f a) (map_chars f s')
  end.

(** Removal of the characters of [cs]. *)
Fixpoint strip_chars (cs : list ascii) (s : string) : string :=
  match s with
  | EmptyString => EmptyString
  | String a s' =>
      if bool_decide (a ∈ cs) then strip_chars cs s'
      else String a (strip_chars cs s')
  end.

Definition member_kinds : list string := ["Method"; "Property"; "Field"; "Event"].

(** The pieces the link loop appends: the links with ", " between them. *)
Fixpoint separated (links : list string) : list string :=
  match links with
  | [] => []
  | [l] => [l]
  | l :: rest => l :: ", " :: separated rest
  end.

(** The two ways a list of links is laid out. *)
Definition collapsible_block (links : list string) : string :=
  nl +:+ "<details>" +:+ nl +:+ "<summary>Expand</summary>" +:+ nl +:+ nl
    +:+ PyStr.join_with ", " links +:+ nl +:+ "</details>" +:+ nl.

Definition inline_list (links : list string) : string :=
  PyStr.join_with ", " links.

(** Character-wise reading of "braces rendered as HTML entities". *)
Definition brace_entity (a : ascii) : string :=
  if Ascii.eqb a "{" then "&#123;"
  else if Ascii.eqb a "}" then "&#125;" else String a "".

Fixpoint expand_chars (f : ascii -> string) (s : string) : string :=
  match s with
  | EmptyString => EmptyString
  | String a s' => f a +:+ expand_chars f s'
  end.

(** The pieces a link loop appends with [sep] between the links. *)
Fixpoint separated_by (sep : string) (links : list string) : list string :=
  match links with
  | [] => []
  | [l] => [l]
  | l :: rest => l :: sep :: separated_by sep rest
  end.

(** The namespace items of the graph, as the index page scans them. *)
Definition namespace_items (items : list Item) : list Item :=
  List.filter (fun i => bool_decide (type i = "Namespace")) items.

(** ** Sample graph used by the concrete instances below *)

Definition plain_item (u nm fnm ty ns par : string) : Item :=
  mkItem u "" "" par [] [] "" nm "" fnm ty [] ns None None None None None None None.

Definition plain_config (rewrite : bool) (tg : option ConfigTypesGrouping) : Config :=
  mkConfig "./Documentation~/api" "./out" "/api" tg (nl +:+ nl) false ("  " +:+ nl) rewrite.

Definition grouping_on (m : Z) : option ConfigTypesGrouping :=
  Some (mkConfigTypesGrouping true m).

Definition ns_N : Item := plain_item "N" "N" "N" "Namespace" "" "".
Definition class_T1 : Item := plain_item "N.T`1" "T<T>" "N.T<T>" "Class" "N" "N".
Definition method_M : Item :=
  plain_item "N.T`1.M(System.Int32)" "M(int?)" "N.T<T>.M(int?)" "Method" "N" "N.T`1".
Definition method_orphan : Item :=
  plain_item "N.U.M" "M()" "N.U.M()" "Method" "N" "N.U".
Definition method_of_namespace : Item :=
  plain_item "N.M" "M()" "N.M()" "Method" "N" "N".



Definition foo_A : Item := plain_item "Foo.A" "A<T>" "Foo.A<T>" "Class" "Foo" "Foo".

(** Namespace "Foo": three items of the counted kinds and one method. *)
Definition foo_classes : list Item :=
  [ foo_A;
    plain_item "Foo.B" "B" "Foo.B" "Class" "Foo" "Foo";
    plain_item "Foo.C" "C" "Foo.C" "Struct" "Foo" "Foo";
    plain_item "Foo.A.M" "M()" "Foo.A.M()" "Method" "Foo" "Foo.A" ].

Definition ten_refs : list string :=
  ["D0"; "D1"; "D2"; "D3"; "D4"; "D5"; "D6"; "D7"; "D8"; "D9"].

Definition five_refs : list string := ["D0"; "D1"; "D2"; "D3"; "D4"].

Definition spans (refs : list string) : list string :=
  List.map inert_code_span refs.

(** A class of namespace "N" with the given derived classes, implemented
    interfaces and extension methods. *)
Definition class_with (derived impls exts : option (list string)) : Item :=
  mkItem "N.B" "T:N.B" "B" "N" [] [] "" "B" "B" "N.B" "Class" [] "N"
    None None None derived impls exts None.

Definition extension_item : Item :=
  mkItem "N.Ext.Foo(N.B)" "M:N.Ext.Foo(N.B)" "Foo(N.B)" "N.Ext" [] [] ""
    "Foo(B)" "Ext.Foo(B)" "N.Ext.Foo(N.B)" "Method" [] "N" None
    (Some (mkSyntax "" "" (Some [mkParameterInfo "b" "N.B" None]) None None))
    None None None None None.

(** ** Facts about the string primitives *)

Section StringFacts.

Lemma append_cons x (a b : string) : String x a +:+ b = String x (a +:+ b).
Proof. reflexivity. Qed.

Lemma append_empty_l (b : string) : "" +:+ b = b.
Proof. reflexivity. Qed.

Lemma append_assoc (a b c : string) : (a +:+ b) +:+ c = a +:+ (b +:+ c).
Proof.
  induction a as [|x a IH]; [reflexivity |].
  now rewrite !append_cons, IH.
Qed.

Lemma append_empty_r (a : string) : a +:+ "" = a.
Proof.
  induction a as [|x a IH]; [reflexivity |]. now rewrite append_cons, IH.
Qed.

Lemma replace_append old new (a b : string) :
  PyStr.replace old new (a +:+ b)
  = PyStr.replace old new a +:+ PyStr.replace old new b.
Proof.
  induction a as [|x a IH]; [reflexivity |].
  rewrite append_cons. simpl. rewrite IH.
  destruct (Ascii.eqb x old); [| reflexivity].
  now rewrite append_assoc.
Qed.

Lemma html_escape_append (a b : string) :
  html_escape (a +:+ b) = html_escape a +:+ html_escape b.
Proof. unfold html_escape. now rewrite !replace_append. Qed.

Lemma file_escape_append (a b : string) :
  file_escape (a +:+ b) = file_escape a +:+ file_escape b.
Proof. unfold file_escape. now rewrite !replace_append. Qed.

Lemma contains_append c (a b : string) :
  PyStr.contains c (a +:+ b) = PyStr.contains c a || PyStr.contains c b.
Proof.
  induction a as [|x a IH]; [reflexivity |].
  rewrite append_cons. simpl.
  destruct (Ascii.eqb x c); [reflexivity | exact IH].
Qed.

Lemma find_index_append c (pre rest : string) :
  PyStr.contains c pre = false ->
  PyStr.find_index c (pre +:+ String c rest) = Some (String.length pre).
Proof.
  induction pre as [|x pre IH]; intros H.
  - rewrite append_empty_l. simpl. now rewrite Ascii.eqb_refl.
  - rewrite append_cons. simpl in *.
    destruct (Ascii.eqb x c); [discriminate |].
    now rewrite (IH H).
Qed.

Lemma rfind_index_absent c (s : string) :
  PyStr.contains c s = false -> PyStr.rfind_index c s = None.
Proof.
  induction s as [|x s IH]; simpl; intros H; [reflexivity |].
  destruct (Ascii.eqb x c); [discriminate |].
  now rewrite (IH H).
Qed.

Lemma rfind_index_append c (s post : string) :
  PyStr.contains c post = false ->
  PyStr.rfind_index c (s +:+ String c post) = Some (String.length s).
Proof.
  intros H. induction s as [|x s IH].
  - rewrite append_empty_l. simpl.
    now rewrite (rfind_index_absent _ _ H), Ascii.eqb_refl.
  - rewrite append_cons. simpl. now rewrite IH.
Qed.

Lemma take_append (pre s : string) :
  PyStr.take (String.length pre) (pre +:+ s) = pre.
Proof.
  induction pre as [|x pre IH]; [now destruct s |].
  rewrite append_cons. simpl. now rewrite IH.
Qed.

Lemma drop_append (pre s : string) :
  PyStr.drop (String.length pre) (pre +:+ s) = s.
Proof.
  induction pre as [|x pre IH]; [now destruct s |].
  rewrite append_cons. simpl. exact IH.
Qed.

Lemma join_app (l1 l2 : list string) :
  PyStr.join (l1 ++ l2) = PyStr.join l1 +:+ PyStr.join l2.
Proof.
  unfold PyStr.join.
  induction l1 as [|x l1 IH]; simpl; [reflexivity |].
  now rewrite IH, append_assoc.
Qed.

End StringFacts.

(** ** Grouping policy *)

Section GroupingFacts.

Lemma count_types_step_lookup (counts : gmap string Z) (it : Item) (n : string) :
  count_types_step counts it !! n
  = if is_type_kind (type it) && bool_decide (namespace it = n)
    then Some (default 0 (counts !! n) + 1)
    else counts !! n.
Proof.
  unfold count_types_step.
  destruct (is_type_kind (type it)); simpl; [| reflexivity].
  case_bool_decide as Hn.
  - subst n. destruct (counts !! namespace it) as [c|] eqn:E;
      now rewrite lookup_insert_eq.
  - destruct (counts !! namespace it) as [c|];
      now rewrite lookup_insert_ne.
Qed.

Lemma count_types_from (items : list Item) :
  forall (counts : gmap string Z) (n : string),
    foldl count_types_step counts items !! n
    = match counts !! n with
      | Some c => Some (c + groupable_count items n)
      | None =>
          if groupable_count items n =? 0 then None
          else Some (groupable_count items n)
      end.
Proof.
  unfold groupable_count.
  induction items as [|it items IH]; intros counts n; simpl.
  - destruct (counts !! n); [f_equal; lia | reflexivity].
  - rewrite IH, count_types_step_lookup.
    destruct (is_type_kind (type it) && bool_decide (namespace it = n));
      simpl length.
    + destruct (counts !! n) as [c|]; simpl.
      * f_equal; lia.
      * destruct (Z.eqb_spec (Z.of_nat (S (length (List.filter
          (fun i => is_type_kind (type i) && bool_decide (namespace i = n))
          items)))) 0); [lia | f_equal; lia].
    + reflexivity.
Qed.

Lemma count_types_lookup (items : list Item) (n : string) :
  count_types items !! n
  = if groupable_count items n =? 0 then None
    else Some (groupable_count items n).
Proof. unfold count_types. now rewrite count_types_from, lookup_empty. Qed.

Lemma groupable_count_nonneg (items : list Item) (n : string) :
  0 <= groupable_count items n.
Proof. unfold groupable_count. lia. Qed.

End GroupingFacts.

(** ** The kind-directory contract *)

Lemma is_type_kind_true (k : string) :
  is_type_kind k = true ->
  k = "Class" \/ k = "Interface" \/ k = "Enum" \/ k = "Struct" \/ k = "Delegate".
Proof.
  unfold is_type_kind. intros H. apply bool_decide_eq_true in H.
  rewrite !elem_of_cons in H. rewrite elem_of_nil in H. tauto.
Qed.

Lemma is_type_kind_false (k : string) :
  is_type_kind k = false ->
  k <> "Class" /\ k <> "Interface" /\ k <> "Enum" /\ k <> "Struct"
  /\ k <> "Delegate".
Proof.
  unfold is_type_kind. intros H. apply bool_decide_eq_false in H.
  rewrite !elem_of_cons in H. rewrite elem_of_nil in H. tauto.
Qed.

Lemma get_type_path_part_known (k : string) :
  is_type_kind k = true -> exists d, get_type_path_part k = Ok d.
Proof.
  intros H. apply is_type_kind_true in H.
  destruct H as [-> | [-> | [-> | [-> | ->]]]]; eexists; reflexivity.
Qed.

Lemma get_type_path_part_unknown (k : string) :
  is_type_kind k = false ->
  get_type_path_part k = Raise (ValueError ("Unknown type: " +:+ k)).
Proof.
  intros H. apply is_type_kind_false in H. destruct H as (H1 & H2 & H3 & H4 & H5).
  unfold get_type_path_part. repeat case_decide; congruence.
Qed.

Lemma get_type_path_part_ok_kind (k d : string) :
  get_type_path_part k = Ok d -> is_type_kind k = true.
Proof.
  intros H. destruct (is_type_kind k) eqn:E; [reflexivity |].
  rewrite (get_type_path_part_unknown _ E) in H. discriminate.
Qed.

(** What [create_link] returns once the reference is resolved to a member
    (neither one of the five type kinds nor a namespace) whose parent is in
    the graph. *)
Lemma create_link_member (uid : string) (g : bool) (items : list Item)
    (nht : string -> bool) (config : Config) (name_only idx : bool)
    (reference par : Item) :
  resolve_reference items uid = Some reference ->
  is_type_kind (type reference) = false ->
  type reference <> "Namespace" ->
  find_by_uid items (parent reference) = Some par ->
  create_link uid g items nht config name_only idx
  = (path_part ←
       (if nht (namespace par)
        then part ← get_type_path_part (type par); Ok ("/" +:+ part)
        else Ok "");
     Ok ("[" +:+ html_escape (if name_only then name reference
                              else full_name reference)
           +:+ "]("
           +:+ file_escape
                 ((if idx then "./" else if g then "../../" else "../")
                    +:+ namespace reference +:+ path_part +:+ "/"
                    +:+ name par +:+ (if idx then ".md" else ""))
           +:+ "#"
           +:+ PyStr.replace "?" ""
                 (PyStr.replace ")" ""
                    (PyStr.replace "(" "" (PyStr.lower (name reference))))
           +:+ ")")).
Proof.
  intros Hr Hk Hn Hp. unfold create_link. rewrite Hr, Hk.
  destruct (decide (type reference = "Namespace")); [contradiction |].
  now rewrite Hp.
Qed.


Lemma create_link_unresolved (uid : string) (g : bool) (items : list Item)
    (nht : string -> bool) (config : Config) (name_only idx : bool) :
  resolve_reference items uid = None ->
  create_link uid g items nht config name_only idx = Ok (inert_code_span uid).
Proof. intros Hr. unfold create_link. now rewrite Hr. Qed.

(** The only way [create_link] raises. *)
Lemma create_link_raise (uid : string) (g : bool) (items : list Item)
    (nht : string -> bool) (config : Config) (name_only idx : bool) (e : exn) :
  create_link uid g items nht config name_only idx = Raise e ->
  exists reference par,
    resolve_reference items uid = Some reference
    /\ is_type_kind (type reference) = false
    /\ type reference <> "Namespace"
    /\ find_by_uid items (parent reference) = Some par
    /\ nht (namespace par) = true
    /\ is_type_kind (type par) = false
    /\ get_type_path_part (type par) = Raise e.
Proof.
  unfold create_link.
  destruct (resolve_reference items uid) as [reference|] eqn:Hr; [| discriminate].
  destruct (is_type_kind (type reference)) eqn:Hk.
  - destruct (get_type_path_part_known _ Hk) as [d Hd]. rewrite Hd.
    destruct (nht (namespace reference)); discriminate.
  - destruct (decide (type reference = "Namespace")) as [Hn|Hn].
    + destruct (rewrite_interlinks config), idx; discriminate.
    + destruct (find_by_uid items (parent reference)) as [par|] eqn:Hp;
        [| discriminate].
      destruct (nht (namespace par)) eqn:Hg; [| discriminate].
      destruct (get_type_path_part (type par)) as [d|e'] eqn:Hd; [discriminate |].
      intros [= <-]. exists reference, par.
      repeat split; try assumption.
      destruct (is_type_kind (type par)) eqn:Hpk; [| reflexivity].
      destruct (get_type_path_part_known _ Hpk) as [d Hd']. congruence.
Qed.

(** ** Claims about the grouping policy *)

(** C2, as stated, fails: with grouping enabled, a minimum of 0 and a
    namespace without any counted item, the count taken as 0 reaches the
    minimum, yet the function answers [false]. *)
Lemma grouping_absent_namespace_zero_minimum :
  count_types [ns_N] !! "N" = None
  /\ (default 0 (count_types [ns_N] !! "N") >=? 0) = true
  /\ namespace_has_type_grouping "N" (count_types [ns_N])
       (plain_config false (grouping_on 0)) = false.
Proof. repeat split; vm_compute; reflexivity. Qed.

(** C2 (amended).  [namespace_has_type_grouping] answers [false] whenever
    grouping is absent from the configuration or disabled; when it is
    enabled it answers [true] exactly when the namespace has a recorded
    count and that count is at least the configured minimum.  For a minimum
    of at least 1 this is the comparison of the count, taken as 0 when none
    is recorded, with the minimum.  The counts [count_types] records are the
    numbers of Class, Interface, Enum, Struct and Delegate items per
    namespace, with no entry for a namespace that has none. *)
Theorem namespace_has_type_grouping_policy :
  forall (n : string) (type_counts : gmap string Z) (config : Config),
    (types_grouping config = None ->
       namespace_has_type_grouping n type_counts config = false)
    /\ (forall tg, types_grouping config = Some tg -> enabled tg = false ->
          namespace_has_type_grouping n type_counts config = false)
    /\ (forall tg, types_grouping config = Some tg -> enabled tg = true ->
          (namespace_has_type_grouping n type_counts config = true
             <-> exists c, type_counts !! n = Some c /\ min_count tg <= c)
          /\ (0 < min_count tg ->
                namespace_has_type_grouping n type_counts config
                = (default 0 (type_counts !! n) >=? min_count tg))
          /\ (forall items, type_counts = count_types items ->
                namespace_has_type_grouping n type_counts config
                = (0 <? groupable_count items n)
                  && (groupable_count items n >=? min_count tg))).
Proof.
  intros n type_counts config. unfold namespace_has_type_grouping.
  split; [intros ->; reflexivity |].
  split; [intros tg -> ->; reflexivity |].
  intros tg -> ->. simpl. split; [| split].
  - destruct (type_counts !! n) as [c|]; split.
    + intros H. exists c. split; [reflexivity |].
      apply Z.geb_le in H. exact H.
    + intros (c' & [= <-] & H). now apply Z.geb_le.
    + discriminate.
    + intros (c' & [=] & _).
  - intros Hpos. destruct (type_counts !! n) as [c|]; simpl; [reflexivity |].
    symmetry. rewrite Z.geb_leb. apply Z.leb_gt. exact Hpos.
  - intros items ->. rewrite count_types_lookup.
    pose proof (groupable_count_nonneg items n) as Hge.
    destruct (Z.eqb_spec (groupable_count items n) 0) as [E|E].
    + rewrite E. reflexivity.
    + replace (0 <? groupable_count items n) with true; [reflexivity |].
      symmetry. apply Z.ltb_lt. lia.
Qed.

Lemma namespace_has_type_grouping_policy_witness :
  namespace_has_type_grouping "Foo" (count_types foo_classes)
    (plain_config false (grouping_on 2)) = true
  /\ namespace_has_type_grouping "Foo" (count_types foo_classes)
       (plain_config false None) = false
  /\ namespace_has_type_grouping "Foo" (count_types foo_classes)
       (plain_config false (Some (mkConfigTypesGrouping false 2))) = false.
Proof.
  destruct (namespace_has_type_grouping_policy "Foo" (count_types foo_classes)
              (plain_config false (grouping_on 2))) as (_ & _ & H).
  destruct (H (mkConfigTypesGrouping true 2) eq_refl eq_refl) as (Hiff & Hpos & Hcnt).
  split.
  - rewrite (Hpos ltac:(simpl; lia)). vm_compute. reflexivity.
  - split.
    + apply (namespace_has_type_grouping_policy "Foo" (count_types foo_classes)
               (plain_config false None)). reflexivity.
    + apply (proj1 (proj2 (namespace_has_type_grouping_policy "Foo"
               (count_types foo_classes)
               (plain_config false (Some (mkConfigTypesGrouping false 2)))))
               (mkConfigTypesGrouping false 2)); reflexivity.
Defined.

(** ** Claims about the resolver's lookup *)



Lemma braces_replaced_charwise (s : string) :
  PyStr.replace "}" ">" (PyStr.replace "{" "<" s) = map_chars brace_to_angle s.
Proof.
  induction s as [|a s IH]; [reflexivity |].
  simpl. unfold brace_to_angle at 1.
  destruct (Ascii.eqb a "{") eqn:E1.
  - rewrite append_cons, append_empty_l. simpl. now rewrite IH.
  - simpl. destruct (Ascii.eqb a "}") eqn:E2.
    + rewrite append_cons, append_empty_l. now rewrite IH.
    + now rewrite IH.
Qed.

(** C4.  A reference that neither the direct lookup nor the retry finds is
    rendered, without an exception, as a non-empty code span: a backquote,
    the identifier with each '{' turned into '<' and each '}' into '>', and
    a backquote. *)
Theorem unresolved_reference_is_inert :
  forall (uid : string) (link_from_grouped_type : bool) (items : list Item)
         (nht : string -> bool) (config : Config) (name_only link_from_index : bool),
    resolve_reference items uid = None ->
    create_link uid link_from_grouped_type items nht config name_only
      link_from_index
    = Ok ("`" +:+ map_chars brace_to_angle uid +:+ "`")
    /\ "`" +:+ map_chars brace_to_angle uid +:+ "`" <> ""
    /\ String.length (map_chars brace_to_angle uid) = String.length uid.
Proof.
  intros uid g items nht config name_only idx Hr.
  rewrite (create_link_unresolved _ _ _ _ _ _ _ Hr).
  unfold inert_code_span. rewrite braces_replaced_charwise.
  split; [reflexivity |]. split; [discriminate |].
  induction uid as [|a u IH] in |- *; simpl; [reflexivity | now rewrite IH].
Qed.

Lemma unresolved_reference_is_inert_witness :
  create_link "System.Func{N.X}" true [ns_N; class_T1; method_M]
    (fun _ => true) (plain_config false None) false false
  = Ok "`System.Func<N.X>`".
Proof.
  apply (unresolved_reference_is_inert "System.Func{N.X}" true
           [ns_N; class_T1; method_M] (fun _ => true) (plain_config false None)
           false false).
  vm_compute. reflexivity.
Defined.

(** ** Claims about the kind-directory mapping and exceptions *)

(** C7.  [get_type_path_part] maps the five type kinds to their directory
    names and raises [ValueError] on every other kind; [create_link] raises
    only by that error, on a kind outside the five, and never for an
    unresolved reference or for a reference whose parent is missing. *)
Theorem kind_directory_contract :
  (get_type_path_part "Class" = Ok "Classes"
   /\ get_type_path_part "Struct" = Ok "Structs"
   /\ get_type_path_part "Interface" = Ok "Interfaces"
   /\ get_type_path_part "Enum" = Ok "Enums"
   /\ get_type_path_part "Delegate" = Ok "Delegates")
  /\ (forall k,
        (k ∉ ["Class"; "Struct"; "Interface"; "Enum"; "Delegate"]) ->
        get_type_path_part k = Raise (ValueError ("Unknown type: " +:+ k)))
  /\ (forall k d,
        get_type_path_part k = Ok d ->
        k ∈ ["Class"; "Struct"; "Interface"; "Enum"; "Delegate"])
  /\ (forall uid g items nht config name_only idx e,
        create_link uid g items nht config name_only idx = Raise e ->
        exists k,
          (k ∉ ["Class"; "Struct"; "Interface"; "Enum"; "Delegate"])
          /\ get_type_path_part k = Raise e
          /\ e = ValueError ("Unknown type: " +:+ k))
  /\ (forall uid g items nht config name_only idx,
        resolve_reference items uid = None ->
        exists s, create_link uid g items nht config name_only idx = Ok s)
  /\ (forall uid g items nht config name_only idx reference,
        resolve_reference items uid = Some reference ->
        find_by_uid items (parent reference) = None ->
        exists s, create_link uid g items nht config name_only idx = Ok s).
Proof.
  assert (Hout : forall k,
    (k ∉ ["Class"; "Struct"; "Interface"; "Enum"; "Delegate"]) ->
    is_type_kind k = false).
  { intros k Hk. unfold is_type_kind. apply bool_decide_eq_false.
    intros Hin. apply Hk. rewrite !elem_of_cons in *. tauto. }
  assert (Hin : forall k,
    is_type_kind k = false ->
    k ∉ ["Class"; "Struct"; "Interface"; "Enum"; "Delegate"]).
  { intros k Hk Hmem. apply is_type_kind_false in Hk.
    rewrite !elem_of_cons, elem_of_nil in Hmem. tauto. }
  split; [repeat split |].
  split; [intros k Hk; apply get_type_path_part_unknown, Hout, Hk |].
  split.
  { intros k d Hd. apply get_type_path_part_ok_kind in Hd.
    apply is_type_kind_true in Hd. rewrite !elem_of_cons. tauto. }
  split.
  { intros uid g items nht config name_only idx e He.
    apply create_link_raise in He.
    destruct He as (reference & par & _ & _ & _ & _ & _ & Hk & Hd).
    exists (type par). split; [apply Hin, Hk |]. split; [exact Hd |].
    rewrite (get_type_path_part_unknown _ Hk) in Hd. congruence. }
  split.
  { intros uid g items nht config name_only idx Hr.
    eexists. apply create_link_unresolved, Hr. }
  intros uid g items nht config name_only idx reference Hr Hp.
  destruct (create_link uid g items nht config name_only idx) as [s|e] eqn:E;
    [now exists s |].
  apply create_link_raise in E.
  destruct E as (r' & par & Hr' & _ & _ & Hp' & _).
  congruence.
Qed.

Lemma kind_directory_contract_witness :
  get_type_path_part "Namespace" = Raise (ValueError "Unknown type: Namespace")
  /\ "Enum" ∈ ["Class"; "Struct"; "Interface"; "Enum"; "Delegate"]
  /\ (exists k, get_type_path_part k
                = Raise (ValueError "Unknown type: Namespace"))
  /\ (exists s, create_link "System.Object" false [ns_N; method_of_namespace]
                  (fun _ => true) (plain_config false None) false false = Ok s)
  /\ (exists s, create_link "N.U.M" false [ns_N; method_orphan]
                  (fun _ => true) (plain_config false None) false false = Ok s).
Proof.
  destruct kind_directory_contract as (_ & Hraise & Hok & Hlink & Hun & Hdang).
  split.
  { apply (Hraise "Namespace"). rewrite !elem_of_cons, elem_of_nil.
    intros [H | [H | [H | [H | [H | []]]]]]; discriminate. }
  split; [apply (Hok "Enum" "Enums"); reflexivity |].
  split.
  { destruct (Hlink "N.M" false [ns_N; method_of_namespace] (fun _ => true)
                (plain_config false None) false false
                (ValueError "Unknown type: Namespace") eq_refl)
      as (k & _ & Hk & _).
    exists k. exact Hk. }
  split.
  { apply Hun. reflexivity. }
  apply (Hdang _ _ _ _ _ _ _ method_orphan); reflexivity.
Defined.

(** ** Claims about the namespace branch *)

(** C1, as stated, fails: with the rewrite flag on, the link built from the
    index page is the one built with the flag off and still repeats the
    name, while the link built from any other page drops the second
    name. *)
Lemma namespace_rewrite_changes_non_index_variant :
  create_link "N" false [ns_N] (fun _ => false) (plain_config true None)
    false true
  = create_link "N" false [ns_N] (fun _ => false) (plain_config false None)
      false true
  /\ create_link "N" false [ns_N] (fun _ => false) (plain_config true None)
       false true = Ok "[N](./N/N.md)"
  /\ create_link "N" false [ns_N] (fun _ => false) (plain_config true None)
       false false = Ok "[N](../N)"
  /\ create_link "N" false [ns_N] (fun _ => false) (plain_config true None)
       false false <> Ok "[N](../N/N)".
Proof. repeat split; vm_compute; congruence. Qed.

(** C1 (amended).  For a reference resolved to a namespace, the rewrite
    flag changes the link built from a page other than the index: its path
    is the relative prefix followed by the name once.  The link built from
    the index page, and every link built with the flag off, has the path
    made of the prefix, the name, a slash, the name again and the page
    extension. *)
Theorem namespace_link_shapes :
  forall (uid : string) (g : bool) (items : list Item) (nht : string -> bool)
         (config : Config) (name_only idx : bool) (reference : Item),
    resolve_reference items uid = Some reference ->
    type reference = "Namespace" ->
    let display :=
      html_escape (if name_only then name reference else full_name reference) in
    let dots := if idx then "./" else if g then "../../" else "../" in
    let extension := if idx then ".md" else "" in
    (rewrite_interlinks config = true -> idx = false ->
       create_link uid g items nht config name_only idx
       = Ok ("[" +:+ display +:+ "]("
               +:+ file_escape (dots +:+ name reference) +:+ ")"))
    /\ (rewrite_interlinks config = true -> idx = true ->
          create_link uid g items nht config name_only idx
          = Ok ("[" +:+ display +:+ "]("
                  +:+ file_escape ("./" +:+ name reference +:+ "/"
                                     +:+ name reference +:+ ".md")
                  +:+ ")"))
    /\ (rewrite_interlinks config = false ->
          create_link uid g items nht config name_only idx
          = Ok ("[" +:+ display +:+ "]("
                  +:+ file_escape (dots +:+ name reference +:+ "/"
                                     +:+ name reference +:+ extension)
                  +:+ ")")).
Proof.
  intros uid g items nht config name_only idx reference Hr Ht.
  unfold create_link. rewrite Hr, Ht. simpl.
  repeat split.
  - intros -> ->. reflexivity.
  - intros -> ->. reflexivity.
  - intros ->. reflexivity.
Qed.

Lemma namespace_link_shapes_witness :
  create_link "N" true [ns_N] (fun _ => false) (plain_config true None)
    false false = Ok "[N](../../N)"
  /\ create_link "N" true [ns_N] (fun _ => false) (plain_config true None)
       false true = Ok "[N](./N/N.md)"
  /\ create_link "N" true [ns_N] (fun _ => false) (plain_config false None)
       false false = Ok "[N](../../N/N)".
Proof.
  split; [| split].
  - destruct (namespace_link_shapes "N" true [ns_N] (fun _ => false)
                (plain_config true None) false false ns_N eq_refl eq_refl)
      as (H & _ & _).
    apply H; reflexivity.
  - destruct (namespace_link_shapes "N" true [ns_N] (fun _ => false)
                (plain_config true None) false true ns_N eq_refl eq_refl)
      as (_ & H & _).
    apply H; reflexivity.
  - destruct (namespace_link_shapes "N" true [ns_N] (fun _ => false)
                (plain_config false None) false false ns_N eq_refl eq_refl)
      as (_ & _ & H).
    apply H; reflexivity.
Defined.

(** ** Claims about member links *)

Lemma find_by_uid_some (items : list Item) (u : string) (it : Item) :
  find_by_uid items u = Some it -> uid it = u.
Proof.
  unfold find_by_uid. intros H. apply List.find_some in H.
  destruct H as [_ H]. now apply bool_decide_eq_true in H.
Qed.

Lemma resolve_reference_direct (items : list Item) (u : string) (it : Item) :
  find_by_uid items u = Some it -> resolve_reference items u = Some it.
Proof. intros H. unfold resolve_reference. now rewrite H. Qed.

Lemma anchor_strips_chars (s : string) :
  PyStr.replace "?" "" (PyStr.replace ")" "" (PyStr.replace "(" "" s))
  = strip_chars ["("; ")"; "?"]%char s.
Proof.
  induction s as [|a s IH]; [reflexivity |].
  simpl. destruct (Ascii.eqb_spec a "(") as [->|H1].
  - rewrite append_empty_l, IH. reflexivity.
  - simpl. destruct (Ascii.eqb_spec a ")") as [->|H2].
    + rewrite append_empty_l, IH. reflexivity.
    + simpl. destruct (Ascii.eqb_spec a "?") as [->|H3].
      * rewrite append_empty_l, IH. reflexivity.
      * rewrite IH. rewrite bool_decide_eq_false_2; [reflexivity |].
        rewrite !elem_of_cons, elem_of_nil. tauto.
Qed.





(** ** Claims about the relative prefix and the page extension *)

Ltac split_path :=
  rewrite ?file_escape_append;
  change (file_escape "./") with "./";
  change (file_escape "../") with "../";
  change (file_escape "../../") with "../../";
  change (file_escape ".md") with ".md";
  change (file_escape "") with "";
  rewrite ?append_assoc, ?append_empty_r, ?append_empty_l;
  reflexivity.

(** C6.  Every link [create_link] builds has a target that begins with
    "./" when the calling page is the index page, with "../../" when the
    calling page is grouped and with "../" otherwise, and that carries ".md"
    right after the path exactly when the calling page is the index page.
    The path between the two is made of the fields of the resolved item
    only: for a type, its namespace, the kind directory when its namespace
    is grouped, and its name; for a namespace, its name twice, or once under
    the rewrite flag from a page other than the index; for a member, its
    namespace, the kind directory of the parent when the parent's namespace
    is grouped, and the parent's name, followed after the extension by the
    fragment. *)
Theorem relative_prefix_and_extension :
  forall (uid : string) (g : bool) (items : list Item) (nht : string -> bool)
         (config : Config) (name_only idx : bool) (reference : Item),
    resolve_reference items uid = Some reference ->
    let display :=
      html_escape (if name_only then name reference else full_name reference) in
    let prefix := if idx then "./" else if g then "../../" else "../" in
    let suffix := if idx then ".md" else "" in
    let anchor := strip_chars ["("; ")"; "?"]%char (PyStr.lower (name reference)) in
    (is_type_kind (type reference) = true ->
       exists dir,
         get_type_path_part (type reference) = Ok dir
         /\ create_link uid g items nht config name_only idx
            = Ok ("[" +:+ display +:+ "](" +:+ prefix
                    +:+ file_escape
                          (namespace reference +:+ "/"
                             +:+ (if nht (namespace reference)
                                  then dir +:+ "/" else "")
                             +:+ name reference)
                    +:+ suffix +:+ ")"))
    /\ (type reference = "Namespace" ->
          create_link uid g items nht config name_only idx
          = Ok ("[" +:+ display +:+ "](" +:+ prefix
                  +:+ file_escape
                        (if rewrite_interlinks config && negb idx
                         then name reference
                         else name reference +:+ "/" +:+ name reference)
                  +:+ suffix +:+ ")"))
    /\ (is_type_kind (type reference) = false ->
        type reference <> "Namespace" ->
        forall par,
          find_by_uid items (parent reference) = Some par ->
          (nht (namespace par) = false ->
             create_link uid g items nht config name_only idx
             = Ok ("[" +:+ display +:+ "](" +:+ prefix
                     +:+ file_escape (namespace reference +:+ "/" +:+ name par)
                     +:+ suffix +:+ "#" +:+ anchor +:+ ")"))
          /\ (nht (namespace par) = true ->
              forall dir,
                get_type_path_part (type par) = Ok dir ->
                create_link uid g items nht config name_only idx
                = Ok ("[" +:+ display +:+ "](" +:+ prefix
                        +:+ file_escape (namespace reference +:+ "/" +:+ dir
                                           +:+ "/" +:+ name par)
                        +:+ suffix +:+ "#" +:+ anchor +:+ ")"))).
Proof.
  intros uid g items nht config name_only idx reference Hr. cbv zeta.
  set (display := html_escape (if name_only then name reference
                               else full_name reference)).
  split; [| split].
  - intros Hk. destruct (get_type_path_part_known _ Hk) as [d Hd].
    exists d. split; [exact Hd |].
    unfold create_link. rewrite Hr, Hk, Hd. fold display.
    destruct (nht (namespace reference)); simpl;
      f_equal; f_equal; f_equal; destruct idx, g; split_path.
  - intros Hn. unfold create_link. rewrite Hr, Hn. simpl. fold display.
    destruct (rewrite_interlinks config); simpl;
      destruct idx; simpl; f_equal; f_equal; f_equal; destruct g; split_path.
  - intros Hk Hn par Hp.
    rewrite (create_link_member _ g _ nht config name_only idx _ _ Hr Hk Hn Hp).
    rewrite anchor_strips_chars. fold display. split.
    + intros ->. simpl. f_equal. f_equal. f_equal.
      destruct idx, g; split_path.
    + intros -> d ->. simpl. f_equal. f_equal. f_equal.
      destruct idx, g; split_path.
Qed.

Lemma relative_prefix_and_extension_witness :
  create_link "N.T`1" false [ns_N; class_T1; method_M] (fun _ => true)
    (plain_config false None) true true
  = Ok "[T&lt;T&gt;](./N/Classes/T`T`.md)"
  /\ create_link "N.T`1" true [ns_N; class_T1; method_M] (fun _ => true)
       (plain_config false None) true false
     = Ok "[T&lt;T&gt;](../../N/Classes/T`T`)"
  /\ create_link "N.T`1" false [ns_N; class_T1; method_M] (fun _ => false)
       (plain_config false None) true false
     = Ok "[T&lt;T&gt;](../N/T`T`)"
  /\ create_link "N" true [ns_N; class_T1; method_M] (fun _ => false)
       (plain_config false None) false true
     = Ok "[N](./N/N.md)"
  /\ create_link "N" true [ns_N; class_T1; method_M] (fun _ => false)
       (plain_config false None) false false
     = Ok "[N](../../N/N)"
  /\ create_link "N.T`1.M(System.Int32)" false [ns_N; class_T1; method_M]
       (fun _ => false) (plain_config false None) true true
     = Ok "[M(int?)](./N/T`T`.md#mint)"
  /\ create_link "N.T`1.M(System.Int32)" true [ns_N; class_T1; method_M]
       (fun _ => true) (plain_config false None) true false
     = Ok "[M(int?)](../../N/Classes/T`T`#mint)".
Proof.
  split.
  { destruct (relative_prefix_and_extension "N.T`1" false
                [ns_N; class_T1; method_M] (fun _ => true)
                (plain_config false None) true true class_T1 eq_refl)
      as (H & _).
    destruct (H eq_refl) as (dir & Hd & Hl). injection Hd as <-. exact Hl. }
  split.
  { destruct (relative_prefix_and_extension "N.T`1" true
                [ns_N; class_T1; method_M] (fun _ => true)
                (plain_config false None) true false class_T1 eq_refl)
      as (H & _).
    destruct (H eq_refl) as (dir & Hd & Hl). injection Hd as <-. exact Hl. }
  split.
  { destruct (relative_prefix_and_extension "N.T`1" false
                [ns_N; class_T1; method_M] (fun _ => false)
                (plain_config false None) true false class_T1 eq_refl)
      as (H & _).
    destruct (H eq_refl) as (dir & Hd & Hl). injection Hd as <-. exact Hl. }
  split.
  { destruct (relative_prefix_and_extension "N" true
                [ns_N; class_T1; method_M] (fun _ => false)
                (plain_config false None) false true ns_N eq_refl)
      as (_ & H & _).
    exact (H eq_refl). }
  split.
  { destruct (relative_prefix_and_extension "N" true
                [ns_N; class_T1; method_M] (fun _ => false)
                (plain_config false None) false false ns_N eq_refl)
      as (_ & H & _).
    exact (H eq_refl). }
  split.
  { destruct (relative_prefix_and_extension "N.T`1.M(System.Int32)" false
                [ns_N; class_T1; method_M] (fun _ => false)
                (plain_config false None) true true method_M eq_refl)
      as (_ & _ & H).
    destruct (H eq_refl ltac:(discriminate) class_T1 eq_refl) as [H1 _].
    exact (H1 eq_refl). }
  destruct (relative_prefix_and_extension "N.T`1.M(System.Int32)" true
              [ns_N; class_T1; method_M] (fun _ => true)
              (plain_config false None) true false method_M eq_refl)
    as (_ & _ & H).
  destruct (H eq_refl ltac:(discriminate) class_T1 eq_refl) as [_ H2].
  exact (H2 eq_refl "Classes" eq_refl).
Defined.

(** ** Claims about the derived-class and implemented-interface lists *)

Lemma join_separated (links : list string) :
  PyStr.join (separated links) = PyStr.join_with ", " links.
Proof.
  induction links as [|l [|l' rest] IH]; [reflexivity | |].
  - unfold PyStr.join. simpl. apply append_empty_r.
  - change (separated (l :: l' :: rest)) with (l :: ", " :: separated (l' :: rest)).
    change (PyStr.join_with ", " (l :: l' :: rest))
      with (l +:+ ", " +:+ PyStr.join_with ", " (l' :: rest)).
    rewrite <- IH. reflexivity.
Qed.

Lemma mapM_cons_ok {A B : Type} (f : A -> result B) (x : A) (l : list A)
    (ys : list B) :
  mapM f (x :: l) = Ok ys ->
  exists y k, f x = Ok y /\ mapM f l = Ok k /\ ys = y :: k.
Proof.
  simpl. destruct (f x) as [y|e]; [| discriminate]. simpl.
  destruct (mapM f l) as [k|e]; [| discriminate]. simpl.
  intros [= <-]. now exists y, k.
Qed.

Lemma append_links_ok config item items type_counts (refs : list string) :
  forall (links : list string) (i total : nat) (sb : list string),
    mapM (page_link config item items type_counts) refs = Ok links ->
    (i + length refs = total)%nat ->
    append_links config item items type_counts i total refs sb
    = Ok (sb ++ separated links).
Proof.
  induction refs as [|r rest IH]; intros links i total sb Hm Hlen.
  - simpl in Hm. injection Hm as <-. simpl. now rewrite app_nil_r.
  - apply mapM_cons_ok in Hm. destruct Hm as (y & k & Hy & Hk & ->).
    simpl. rewrite Hy. simpl.
    destruct rest as [|r2 rest'].
    + simpl in Hk. injection Hk as <-. simpl in Hlen.
      rewrite bool_decide_eq_false_2 by lia. reflexivity.
    + rewrite bool_decide_eq_true_2 by (simpl in Hlen; lia).
      rewrite (IH k (S i) total _ Hk) by (simpl in *; lia).
      apply mapM_cons_ok in Hk. destruct Hk as (y2 & k' & _ & _ & ->).
      f_equal. rewrite <- !app_assoc. reflexivity.
Qed.

(** C8.  On a type page a non-empty derived-class list, and likewise a
    non-empty implemented-interface list, is written after its heading as a
    collapsible block (the links inside "<details>", a
    "<summary>Expand</summary>" line and "</details>") when it has more than
    8 entries, and as the comma-separated links otherwise; an absent or
    empty list writes nothing. *)
Theorem link_lists_collapse_above_eight :
  forall (config : Config) (item : Item) (items : list Item)
         (type_counts : gmap string Z) (sb : list string),
    (forall derived links,
        derived_classes item = Some derived -> derived <> [] ->
        mapM (page_link config item items type_counts) derived = Ok links ->
        exists out,
          render_derived_classes config item items type_counts sb = Ok out
          /\ PyStr.join out
             = PyStr.join sb +:+ "**Derived:**  " +:+ nl
                 +:+ (if (8 <? length derived)%nat then collapsible_block links
                      else inline_list links)
                 +:+ nl +:+ nl)
    /\ (forall impls links,
          implements item = Some impls -> impls <> [] ->
          mapM (page_link config item items type_counts) impls = Ok links ->
          exists out,
            render_implements config item items type_counts sb = Ok out
            /\ PyStr.join out
               = PyStr.join sb +:+ "**Implements:**  " +:+ nl
                   +:+ (if (8 <? length impls)%nat then collapsible_block links
                        else inline_list links)
                   +:+ nl +:+ nl)
    /\ (derived_classes item = None \/ derived_classes item = Some [] ->
          render_derived_classes config item items type_counts sb = Ok sb)
    /\ (implements item = None \/ implements item = Some [] ->
          render_implements config item items type_counts sb = Ok sb).
Proof.
  intros config item items type_counts sb.
  assert (Hjoin1 : forall s : string, PyStr.join [s] = s)
    by (intros s; unfold PyStr.join; simpl; apply append_empty_r).
  split; [| split; [| split]].
  - intros derived links Hd Hne Hm. unfold render_derived_classes. rewrite Hd.
    destruct derived as [|d0 dr]; [contradiction |].
    set (derived := d0 :: dr) in *.
    destruct (8 <? length derived)%nat.
    + rewrite (append_links_ok _ _ _ _ derived links 0 (length derived) _ Hm eq_refl).
      simpl. eexists. split; [reflexivity |].
      rewrite !join_app, !Hjoin1, join_separated.
      unfold collapsible_block, details_open, details_close.
      now rewrite !append_assoc.
    + rewrite (append_links_ok _ _ _ _ derived links 0 (length derived) _ Hm eq_refl).
      simpl. eexists. split; [reflexivity |].
      rewrite !join_app, !Hjoin1, join_separated.
      unfold inline_list. now rewrite !append_assoc.
  - intros impls links Hd Hne Hm. unfold render_implements. rewrite Hd.
    destruct impls as [|d0 dr]; [contradiction |].
    set (impls := d0 :: dr) in *.
    destruct (8 <? length impls)%nat.
    + rewrite (append_links_ok _ _ _ _ impls links 0 (length impls) _ Hm eq_refl).
      simpl. eexists. split; [reflexivity |].
      rewrite !join_app, !Hjoin1, join_separated.
      unfold collapsible_block, details_open, details_close.
      now rewrite !append_assoc.
    + rewrite (append_links_ok _ _ _ _ impls links 0 (length impls) _ Hm eq_refl).
      simpl. eexists. split; [reflexivity |].
      rewrite !join_app, !Hjoin1, join_separated.
      unfold inline_list. now rewrite !append_assoc.
  - unfold render_derived_classes. intros [-> | ->]; reflexivity.
  - unfold render_implements. intros [-> | ->]; reflexivity.
Qed.

Lemma link_lists_collapse_above_eight_witness :
  (exists out,
      render_derived_classes (plain_config false None)
        (class_with (Some ten_refs) None None) [ns_N] ∅ [] = Ok out
      /\ PyStr.join out
         = "**Derived:**  " +:+ nl
             +:+ nl +:+ "<details>" +:+ nl +:+ "<summary>Expand</summary>"
             +:+ nl +:+ nl
             +:+ "`D0`, `D1`, `D2`, `D3`, `D4`, `D5`, `D6`, `D7`, `D8`, `D9`"
             +:+ nl +:+ "</details>" +:+ nl
             +:+ nl +:+ nl)
  /\ (exists out,
        render_derived_classes (plain_config false None)
          (class_with (Some five_refs) None None) [ns_N] ∅ [] = Ok out
        /\ PyStr.join out
           = "**Derived:**  " +:+ nl +:+ "`D0`, `D1`, `D2`, `D3`, `D4`"
               +:+ nl +:+ nl)
  /\ (exists out,
        render_implements (plain_config false None)
          (class_with None (Some ten_refs) None) [ns_N] ∅ [] = Ok out
        /\ PyStr.join out
           = "**Implements:**  " +:+ nl
               +:+ nl +:+ "<details>" +:+ nl +:+ "<summary>Expand</summary>"
               +:+ nl +:+ nl
               +:+ "`D0`, `D1`, `D2`, `D3`, `D4`, `D5`, `D6`, `D7`, `D8`, `D9`"
               +:+ nl +:+ "</details>" +:+ nl
               +:+ nl +:+ nl)
  /\ (exists out,
        render_implements (plain_config false None)
          (class_with None (Some five_refs) None) [ns_N] ∅ [] = Ok out
        /\ PyStr.join out
           = "**Implements:**  " +:+ nl +:+ "`D0`, `D1`, `D2`, `D3`, `D4`"
               +:+ nl +:+ nl)
  /\ render_derived_classes (plain_config false None)
       (class_with (Some []) None None) [ns_N] ∅ [] = Ok []
  /\ render_implements (plain_config false None)
       (class_with None None None) [ns_N] ∅ [] = Ok [].
Proof.
  split.
  { destruct (link_lists_collapse_above_eight (plain_config false None)
                (class_with (Some ten_refs) None None) [ns_N] ∅ [])
      as (H & _).
    apply (H ten_refs (spans ten_refs)); [reflexivity | discriminate | reflexivity]. }
  split.
  { destruct (link_lists_collapse_above_eight (plain_config false None)
                (class_with (Some five_refs) None None) [ns_N] ∅ [])
      as (H & _).
    apply (H five_refs (spans five_refs)); [reflexivity | discriminate | reflexivity]. }
  split.
  { destruct (link_lists_collapse_above_eight (plain_config false None)
                (class_with None (Some ten_refs) None) [ns_N] ∅ [])
      as (_ & H & _).
    apply (H ten_refs (spans ten_refs)); [reflexivity | discriminate | reflexivity]. }
  split.
  { destruct (link_lists_collapse_above_eight (plain_config false None)
                (class_with None (Some five_refs) None) [ns_N] ∅ [])
      as (_ & H & _).
    apply (H five_refs (spans five_refs)); [reflexivity | discriminate | reflexivity]. }
  split.
  { destruct (link_lists_collapse_above_eight (plain_config false None)
                (class_with (Some []) None None) [ns_N] ∅ [])
      as (_ & _ & H & _).
    apply H. right. reflexivity. }
  destruct (link_lists_collapse_above_eight (plain_config false None)
              (class_with None None None) [ns_N] ∅ [])
    as (_ & _ & _ & H).
  apply H. left. reflexivity.
Defined.

(** ** Claims about the extension-method list *)

Lemma braces_replaced_by_entities (s : string) :
  PyStr.replace "}" "&#125;" (PyStr.replace "{" "&#123;" s)
  = expand_chars brace_entity s.
Proof.
  induction s as [|a s IH]; [reflexivity |].
  simpl. unfold brace_entity at 1.
  destruct (Ascii.eqb a "{") eqn:E1.
  - rewrite replace_append, IH. reflexivity.
  - simpl. destruct (Ascii.eqb a "}") eqn:E2.
    + now rewrite IH.
    + now rewrite IH.
Qed.

Lemma append_extension_methods_mapM config item items type_counts
    (exts : list string) :
  forall sb : list string,
    append_extension_methods config item items type_counts exts sb
    = (lines ← mapM (extension_method_line config item items type_counts) exts;
       Ok (sb ++ lines)).
Proof.
  induction exts as [|e rest IH]; intros sb; simpl.
  - now rewrite app_nil_r.
  - destruct (extension_method_line config item items type_counts e) as [l|x];
      simpl; [| reflexivity].
    rewrite IH.
    destruct (mapM (extension_method_line config item items type_counts) rest)
      as [ls|x]; simpl; [| reflexivity].
    now rewrite <- app_assoc.
Qed.

(** C9.  The "Extension Methods" heading and bullets are written only for
    an extension-method list of two or more entries; no list, an empty list
    and a one-entry list write nothing.  Inside the section every entry
    gets one bullet, and an entry whose key matches no item gets the entry
    text with '{' and '}' turned into "&#123;" and "&#125;", without an
    exception. *)
Theorem extension_methods_section :
  forall (config : Config) (item : Item) (items : list Item)
         (type_counts : gmap string Z) (sb : list string),
    (extension_methods item = None ->
       render_extension_methods config item items type_counts sb = Ok sb)
    /\ (forall exts,
          extension_methods item = Some exts -> (length exts <= 1)%nat ->
          render_extension_methods config item items type_counts sb = Ok sb)
    /\ (forall exts,
          extension_methods item = Some exts -> (1 < length exts)%nat ->
          render_extension_methods config item items type_counts sb
          = (lines ← mapM (extension_method_line config item items type_counts)
                       exts;
             Ok (sb ++ ("## Extension Methods" +:+ nl) :: lines)))
    /\ (forall ext,
          List.find (matches_extension_method ext) items = None ->
          extension_method_line config item items type_counts ext
          = Ok ("* " +:+ expand_chars brace_entity ext +:+ nl))
    /\ (forall exts,
          extension_methods item = Some exts -> (1 < length exts)%nat ->
          (forall ext, ext ∈ exts ->
             List.find (matches_extension_method ext) items = None) ->
          render_extension_methods config item items type_counts sb
          = Ok (sb ++ ("## Extension Methods" +:+ nl)
                  :: List.map (fun ext => "* " +:+ expand_chars brace_entity ext
                                            +:+ nl) exts)).
Proof.
  intros config item items type_counts sb.
  assert (Hline : forall ext,
    List.find (matches_extension_method ext) items = None ->
    extension_method_line config item items type_counts ext
    = Ok ("* " +:+ expand_chars brace_entity ext +:+ nl)).
  { intros ext Hf. unfold extension_method_line. rewrite Hf.
    now rewrite braces_replaced_by_entities. }
  assert (Hmany : forall exts,
    extension_methods item = Some exts -> (1 < length exts)%nat ->
    render_extension_methods config item items type_counts sb
    = (lines ← mapM (extension_method_line config item items type_counts) exts;
       Ok (sb ++ ("## Extension Methods" +:+ nl) :: lines))).
  { intros exts He Hlen. unfold render_extension_methods. rewrite He.
    replace (1 <? length exts)%nat with true
      by (symmetry; apply Nat.ltb_lt; exact Hlen).
    rewrite append_extension_methods_mapM.
    destruct (mapM (extension_method_line config item items type_counts) exts);
      simpl; [| reflexivity].
    now rewrite <- app_assoc. }
  split.
  { intros He. unfold render_extension_methods. now rewrite He. }
  split.
  { intros exts He Hlen. unfold render_extension_methods. rewrite He.
    replace (1 <? length exts)%nat with false
      by (symmetry; apply Nat.ltb_ge; exact Hlen).
    reflexivity. }
  split; [exact Hmany |].
  split; [exact Hline |].
  intros exts He Hlen Hnone. rewrite (Hmany exts He Hlen).
  assert (Hall : mapM (extension_method_line config item items type_counts) exts
                 = Ok (List.map (fun ext => "* " +:+ expand_chars brace_entity ext
                                              +:+ nl) exts)).
  { clear He Hlen. induction exts as [|e rest IH]; [reflexivity |].
    simpl. rewrite Hline by (apply Hnone; left). simpl.
    rewrite IH by (intros x Hx; apply Hnone; now right). reflexivity. }
  now rewrite Hall.
Qed.

Lemma extension_methods_section_witness :
  render_extension_methods (plain_config false None)
    (class_with None None None) [ns_N; extension_item] ∅ ["page"]
  = Ok ["page"]
  /\ render_extension_methods (plain_config false None)
       (class_with None None (Some ["N.B.N.Ext.Foo"])) [ns_N; extension_item]
       ∅ ["page"]
     = Ok ["page"]
  /\ render_extension_methods (plain_config false None)
       (class_with None None (Some ["N.B.N.Ext.Foo"; "X.Y{T}"]))
       [ns_N; extension_item] ∅ ["page"]
     = Ok ["page"; "## Extension Methods" +:+ nl;
           "* `N.Ext.Foo(N.B)`" +:+ nl; "* X.Y&#123;T&#125;" +:+ nl]
  /\ extension_method_line (plain_config false None)
       (class_with None None None) [ns_N; extension_item] ∅ "X.Y{T}"
     = Ok ("* X.Y&#123;T&#125;" +:+ nl)
  /\ render_extension_methods (plain_config false None)
       (class_with None None (Some ["A{T}"; "B{U}"])) [ns_N; extension_item]
       ∅ ["page"]
     = Ok ["page"; "## Extension Methods" +:+ nl;
           "* A&#123;T&#125;" +:+ nl; "* B&#123;U&#125;" +:+ nl].
Proof.
  split.
  { apply (extension_methods_section (plain_config false None)
             (class_with None None None) [ns_N; extension_item] ∅ ["page"]).
    reflexivity. }
  split.
  { destruct (extension_methods_section (plain_config false None)
                (class_with None None (Some ["N.B.N.Ext.Foo"]))
                [ns_N; extension_item] ∅ ["page"]) as (_ & H & _).
    apply (H ["N.B.N.Ext.Foo"]); [reflexivity | simpl; lia]. }
  split.
  { destruct (extension_methods_section (plain_config false None)
                (class_with None None (Some ["N.B.N.Ext.Foo"; "X.Y{T}"]))
                [ns_N; extension_item] ∅ ["page"]) as (_ & _ & H & _).
    rewrite (H ["N.B.N.Ext.Foo"; "X.Y{T}"]); [reflexivity | reflexivity | simpl; lia]. }
  split.
  { destruct (extension_methods_section (plain_config false None)
                (class_with None None None) [ns_N; extension_item] ∅ ["page"])
      as (_ & _ & _ & H & _).
    apply (H "X.Y{T}"). reflexivity. }
  destruct (extension_methods_section (plain_config false None)
              (class_with None None (Some ["A{T}"; "B{U}"]))
              [ns_N; extension_item] ∅ ["page"]) as (_ & _ & _ & _ & H).
  apply (H ["A{T}"; "B{U}"]); [reflexivity | simpl; lia |].
  intros ext Hin. rewrite !elem_of_cons, elem_of_nil in Hin.
  destruct Hin as [-> | [-> | []]]; reflexivity.
Defined.

(** ** Claims relating the page location and the links *)






(** ** Further properties of the per-namespace counts *)

Lemma groupable_count_app (a b : list Item) (n : string) :
  groupable_count (a ++ b) n = groupable_count a n + groupable_count b n.
Proof.
  unfold groupable_count. rewrite List.filter_app, length_app. lia.
Qed.

Lemma groupable_count_perm (a b : list Item) (n : string) :
  a ≡ₚ b -> groupable_count a n = groupable_count b n.
Proof.
  unfold groupable_count. intros H. f_equal.
  induction H as [|x l l' _ IH|x y l|l l' l'' _ IH1 _ IH2]; simpl.
  - reflexivity.
  - destruct (is_type_kind (type x) && bool_decide (namespace x = n));
      simpl; now rewrite IH.
  - destruct (is_type_kind (type x) && bool_decide (namespace x = n)),
             (is_type_kind (type y) && bool_decide (namespace y = n));
      reflexivity.
  - congruence.
Qed.

Lemma groupable_count_other_kinds (more : list Item) (n : string) :
  (forall i, i ∈ more -> is_type_kind (type i) = false) ->
  groupable_count more n = 0.
Proof.
  unfold groupable_count. intros H.
  induction more as [|x more IH]; [reflexivity |].
  simpl. rewrite (H x) by left. simpl.
  apply IH. intros i Hi. apply H. now right.
Qed.

Lemma default_count_types (items : list Item) (n : string) :
  default 0 (count_types items !! n) = groupable_count items n.
Proof.
  rewrite count_types_lookup.
  destruct (Z.eqb_spec (groupable_count items n) 0) as [E|E]; simpl; lia.
Qed.

(** X1.  The counts do not depend on the order in which the items were
    loaded, and neither does the grouping decision taken from them. *)
Theorem count_types_order_independent :
  forall (items items' : list Item),
    items ≡ₚ items' ->
    count_types items = count_types items'
    /\ forall n config,
         namespace_has_type_grouping n (count_types items) config
         = namespace_has_type_grouping n (count_types items') config.
Proof.
  intros items items' Hp.
  assert (E : count_types items = count_types items').
  { apply map_eq. intros n. rewrite !count_types_lookup.
    now rewrite (groupable_count_perm _ _ n Hp). }
  split; [exact E |]. intros n config. now rewrite E.
Qed.

Lemma count_types_order_independent_witness :
  count_types [ns_N; class_T1; foo_A] = count_types [foo_A; ns_N; class_T1].
Proof.
  apply (count_types_order_independent [ns_N; class_T1; foo_A]
           [foo_A; ns_N; class_T1]).
  change [foo_A; ns_N; class_T1] with ([foo_A] ++ [ns_N; class_T1]).
  change [ns_N; class_T1; foo_A] with ([ns_N; class_T1] ++ [foo_A]).
  apply Permutation_app_comm.
Defined.

(** X2.  A namespace has an entry in the counts exactly when at least one
    of its items is a Class, Interface, Enum, Struct or Delegate, and the
    entry is the number of those items; no entry is ever 0. *)
Theorem count_types_entries :
  forall (items : list Item) (n : string) (c : Z),
    count_types items !! n = Some c
    <-> c = groupable_count items n /\ 1 <= c.
Proof.
  intros items n c. rewrite count_types_lookup.
  pose proof (groupable_count_nonneg items n) as Hge.
  destruct (Z.eqb_spec (groupable_count items n) 0) as [E|E]; split.
  - discriminate.
  - intros [-> H]. lia.
  - intros [= <-]. split; [reflexivity | lia].
  - intros [-> _]. reflexivity.
Qed.

(** X3.  Counting a graph loaded in two parts adds the counts of the
    parts, a missing entry standing for 0. *)
Theorem count_types_app :
  forall (a b : list Item) (n : string),
    default 0 (count_types (a ++ b) !! n)
    = default 0 (count_types a !! n) + default 0 (count_types b !! n).
Proof.
  intros a b n. rewrite !default_count_types. apply groupable_count_app.
Qed.

(** X4.  Items that are not of the five type kinds (namespaces, methods,
    properties, fields, events, anything else) never change the counts. *)
Theorem count_types_ignores_other_kinds :
  forall (items more : list Item),
    (forall i, i ∈ more -> is_type_kind (type i) = false) ->
    count_types (items ++ more) = count_types items.
Proof.
  intros items more H. apply map_eq. intros n.
  rewrite !count_types_lookup, groupable_count_app.
  rewrite (groupable_count_other_kinds more n H).
  now rewrite Z.add_0_r.
Qed.

Lemma count_types_ignores_other_kinds_witness :
  count_types ([class_T1; foo_A] ++ [ns_N; method_M])
  = count_types [class_T1; foo_A].
Proof.
  apply (count_types_ignores_other_kinds [class_T1; foo_A] [ns_N; method_M]).
  intros i Hi. rewrite !elem_of_cons, elem_of_nil in Hi.
  destruct Hi as [-> | [-> | []]]; reflexivity.
Defined.

(** X5.  A namespace that is grouped stays grouped when more items are
    loaded, and when the configured minimum is lowered. *)
Theorem grouping_is_monotone :
  forall (n : string) (items more : list Item) (config config' : Config)
         (tg tg' : ConfigTypesGrouping),
    namespace_has_type_grouping n (count_types items) config = true ->
    namespace_has_type_grouping n (count_types (items ++ more)) config = true
    /\ (types_grouping config = Some tg ->
        types_grouping config' = Some tg' ->
        enabled tg' = true ->
        min_count tg' <= min_count tg ->
        namespace_has_type_grouping n (count_types items) config' = true).
Proof.
  intros n items more config config' tg tg'.
  unfold namespace_has_type_grouping.
  destruct (types_grouping config) as [t|]; [| discriminate].
  destruct (enabled t); simpl; [| discriminate].
  rewrite !count_types_lookup, groupable_count_app.
  pose proof (groupable_count_nonneg items n) as H1.
  pose proof (groupable_count_nonneg more n) as H2.
  destruct (Z.eqb_spec (groupable_count items n) 0) as [E|E]; [discriminate |].
  intros H. apply Z.geb_le in H. split.
  - destruct (Z.eqb_spec (groupable_count items n + groupable_count more n) 0);
      [lia |].
    apply Z.geb_le. lia.
  - intros [= <-] -> -> Hle. simpl. apply Z.geb_le. lia.
Qed.

Lemma grouping_is_monotone_witness :
  namespace_has_type_grouping "Foo" (count_types (foo_classes ++ [class_T1]))
    (plain_config false (grouping_on 3)) = true
  /\ namespace_has_type_grouping "Foo" (count_types foo_classes)
       (plain_config true (grouping_on 1)) = true.
Proof.
  destruct (grouping_is_monotone "Foo" foo_classes [class_T1]
              (plain_config false (grouping_on 3))
              (plain_config true (grouping_on 1))
              (mkConfigTypesGrouping true 3) (mkConfigTypesGrouping true 1))
    as [Ha Hb]; [vm_compute; reflexivity |].
  split; [exact Ha |].
  apply Hb; [reflexivity | reflexivity | reflexivity | simpl; lia].
Defined.

(** ** Further properties of the lookup *)

Lemma find_by_uid_elem (items : list Item) (u : string) (it : Item) :
  find_by_uid items u = Some it -> it ∈ items.
Proof.
  unfold find_by_uid. intros H. apply List.find_some in H.
  apply list_elem_of_In. tauto.
Qed.

Lemma drop_after (s : string) c (r : string) :
  PyStr.drop (S (String.length s)) (s +:+ String c r) = r.
Proof.
  induction s as [|x s IH]; [reflexivity |]. rewrite append_cons. exact IH.
Qed.

(** The retried identifier when the text before the first '{' is [pre] and
    the text after the last '}' is [post]. *)
Lemma resolve_reference_outer_braces (items : list Item) (pre mid post : string) :
  PyStr.contains "{" pre = false ->
  PyStr.contains "}" post = false ->
  find_by_uid items (pre +:+ "{" +:+ mid +:+ "}" +:+ post) = None ->
  resolve_reference items (pre +:+ "{" +:+ mid +:+ "}" +:+ post)
  = find_by_uid items (pre +:+ "`1" +:+ post).
Proof.
  intros Hpre Hpost Hnone. unfold resolve_reference. rewrite Hnone.
  replace (PyStr.contains "{" (pre +:+ "{" +:+ mid +:+ "}" +:+ post)) with true
    by (rewrite contains_append, Hpre; reflexivity).
  assert (Hsplit : pre +:+ "{" +:+ mid +:+ "}" +:+ post
                   = (pre +:+ "{" +:+ mid) +:+ String "}" post)
    by now rewrite !append_assoc.
  assert (Hfind : PyStr.find "{" (pre +:+ "{" +:+ mid +:+ "}" +:+ post)
                  = Z.of_nat (String.length pre)).
  { unfold PyStr.find.
    change ("{" +:+ mid +:+ "}" +:+ post) with (String "{" (mid +:+ "}" +:+ post)).
    now rewrite find_index_append. }
  assert (Hrfind : PyStr.rfind "}" (pre +:+ "{" +:+ mid +:+ "}" +:+ post)
                   = Z.of_nat (String.length (pre +:+ "{" +:+ mid))).
  { unfold PyStr.rfind. rewrite Hsplit. now rewrite rfind_index_append. }
  rewrite Hfind, Hrfind.
  replace (negb (Z.of_nat (String.length pre) =? -1)) with true
    by (symmetry; apply negb_true_iff, Z.eqb_neq; lia).
  replace (negb (Z.of_nat (String.length (pre +:+ "{" +:+ mid)) =? -1)) with true
    by (symmetry; apply negb_true_iff, Z.eqb_neq; lia).
  simpl andb. cbv iota.
  rewrite Nat2Z.id, take_append.
  replace (Z.to_nat (Z.of_nat (String.length (pre +:+ "{" +:+ mid)) + 1))
    with (S (String.length (pre +:+ "{" +:+ mid))) by lia.
  rewrite Hsplit at 1. now rewrite drop_after.
Qed.

(** X6.  The retry replaces everything from the first '{' to the last '}':
    whatever stands between them, further braces included, plays no part,
    so nested or several type-argument segments are replaced as one, and
    always by the arity-1 marker. *)
Theorem fallback_replaces_first_to_last_brace :
  forall (items : list Item) (pre mid mid' post : string),
    PyStr.contains "{" pre = false ->
    PyStr.contains "}" post = false ->
    find_by_uid items (pre +:+ "{" +:+ mid +:+ "}" +:+ post) = None ->
    find_by_uid items (pre +:+ "{" +:+ mid' +:+ "}" +:+ post) = None ->
    resolve_reference items (pre +:+ "{" +:+ mid +:+ "}" +:+ post)
    = find_by_uid items (pre +:+ "`1" +:+ post)
    /\ resolve_reference items (pre +:+ "{" +:+ mid +:+ "}" +:+ post)
       = resolve_reference items (pre +:+ "{" +:+ mid' +:+ "}" +:+ post).
Proof.
  intros items pre mid mid' post Hpre Hpost H1 H2.
  rewrite !resolve_reference_outer_braces by assumption. split; reflexivity.
Qed.

Lemma fallback_replaces_first_to_last_brace_witness :
  resolve_reference [ns_N; class_T1] "N.T{A{B},C}" = Some class_T1
  /\ resolve_reference [ns_N; class_T1] "N.T{A{B},C}"
     = resolve_reference [ns_N; class_T1] "N.T{X}".
Proof.
  refine (fallback_replaces_first_to_last_brace [ns_N; class_T1]
            "N.T" "A{B},C" "X" "" _ _ _ _); reflexivity.
Defined.

(** X7.  The lookup only ever returns an item of the graph, and that item
    carries either the identifier asked for or the identifier with its
    first-'{'-to-last-'}' span replaced by the arity marker.  An identifier
    with no direct match and no '{', or no '}', is not retried. *)
Theorem resolve_reference_sound :
  forall (items : list Item) (ref_id : string),
    (forall r,
        resolve_reference items ref_id = Some r ->
        r ∈ items
        /\ (uid r = ref_id
            \/ (find_by_uid items ref_id = None
                /\ PyStr.contains "{" ref_id = true
                /\ PyStr.contains "}" ref_id = true
                /\ uid r
                   = PyStr.take (Z.to_nat (PyStr.find "{" ref_id)) ref_id +:+ "`1"
                       +:+ PyStr.drop (Z.to_nat (PyStr.rfind "}" ref_id + 1)) ref_id)))
    /\ (find_by_uid items ref_id = None -> PyStr.contains "{" ref_id = false ->
        resolve_reference items ref_id = None)
    /\ (find_by_uid items ref_id = None -> PyStr.contains "}" ref_id = false ->
        resolve_reference items ref_id = None).
Proof.
  intros items ref_id. split; [| split].
  - intros r. unfold resolve_reference.
    destruct (find_by_uid items ref_id) as [r0|] eqn:Hd.
    + intros [= <-]. split; [now apply (find_by_uid_elem _ ref_id) |].
      left. now apply (find_by_uid_some items).
    + destruct (PyStr.contains "{" ref_id) eqn:Ho; [| discriminate].
      destruct (negb (PyStr.find "{" ref_id =? -1)
                && negb (PyStr.rfind "}" ref_id =? -1)) eqn:Hb; [| discriminate].
      intros Hf. split; [now apply find_by_uid_elem in Hf |].
      right. split; [reflexivity |]. split; [reflexivity |].
      split; [| now apply find_by_uid_some in Hf].
      destruct (PyStr.contains "}" ref_id) eqn:Hc; [reflexivity |].
      apply andb_true_iff in Hb. destruct Hb as [_ Hb].
      unfold PyStr.rfind in Hb. rewrite (rfind_index_absent _ _ Hc) in Hb.
      discriminate.
  - intros Hd Ho. unfold resolve_reference. now rewrite Hd, Ho.
  - intros Hd Hc. unfold resolve_reference. rewrite Hd.
    unfold PyStr.rfind. rewrite (rfind_index_absent _ _ Hc).
    destruct (PyStr.contains "{" ref_id); [| reflexivity].
    now rewrite andb_false_r.
Qed.

Lemma resolve_reference_sound_witness :
  (class_T1 ∈ [ns_N; class_T1; method_M])
  /\ resolve_reference [ns_N; class_T1; method_M] "System.String" = None
  /\ resolve_reference [ns_N; class_T1; method_M] "N.T{" = None.
Proof.
  destruct (resolve_reference_sound [ns_N; class_T1; method_M] "N.T{N.T}")
    as (H & _ & _).
  split; [exact (proj1 (H class_T1 eq_refl)) |].
  split.
  - apply (resolve_reference_sound [ns_N; class_T1; method_M] "System.String");
      reflexivity.
  - apply (resolve_reference_sound [ns_N; class_T1; method_M] "N.T{");
      reflexivity.
Defined.

(** ** Further properties of the two escaping passes *)

Lemma contains_replace_old (old : ascii) (new s : string) :
  PyStr.contains old new = false ->
  PyStr.contains old (PyStr.replace old new s) = false.
Proof.
  intros Hn. induction s as [|a s IH]; [reflexivity |].
  simpl. destruct (Ascii.eqb a old) eqn:E.
  - now rewrite contains_append, Hn, IH.
  - simpl. now rewrite E.
Qed.

Lemma contains_replace_other (c old : ascii) (new s : string) :
  PyStr.contains c new = false ->
  PyStr.contains c s = false ->
  PyStr.contains c (PyStr.replace old new s) = false.
Proof.
  intros Hn. induction s as [|a s IH]; [reflexivity |].
  simpl. destruct (Ascii.eqb a c) eqn:Ec; [discriminate |]. intros Hs.
  destruct (Ascii.eqb a old).
  - now rewrite contains_append, Hn, IH.
  - simpl. now rewrite Ec, IH.
Qed.

Lemma replace_absent (old : ascii) (new s : string) :
  PyStr.contains old s = false -> PyStr.replace old new s = s.
Proof.
  induction s as [|a s IH]; [reflexivity |].
  simpl. destruct (Ascii.eqb a old); [discriminate |].
  intros H. now rewrite IH.
Qed.

Lemma html_escape_clean (s : string) :
  PyStr.contains "<" (html_escape s) = false
  /\ PyStr.contains ">" (html_escape s) = false.
Proof.
  unfold html_escape. split.
  - apply contains_replace_other; [reflexivity |].
    now apply contains_replace_old.
  - now apply contains_replace_old.
Qed.

Lemma file_escape_clean (s : string) :
  PyStr.contains "<" (file_escape s) = false
  /\ PyStr.contains ">" (file_escape s) = false
  /\ PyStr.contains " " (file_escape s) = false.
Proof.
  unfold file_escape. split; [| split].
  - apply contains_replace_other; [reflexivity |].
    apply contains_replace_other; [reflexivity |].
    now apply contains_replace_old.
  - apply contains_replace_other; [reflexivity |].
    now apply contains_replace_old.
  - now apply contains_replace_old.
Qed.

Lemma html_escape_stable (link : string) :
  PyStr.contains "<" link = false -> PyStr.contains ">" link = false ->
  html_escape link = link.
Proof.
  intros Ha Hb. unfold html_escape.
  now rewrite (replace_absent "<" _ _ Ha), (replace_absent ">" _ _ Hb).
Qed.

(** X8.  [html_escape] leaves no '<' and no '>' in its result, changes
    nothing in a text that has neither, and applying it twice is the same as
    applying it once. *)
Theorem html_escape_properties :
  forall s : string,
    PyStr.contains "<" (html_escape s) = false
    /\ PyStr.contains ">" (html_escape s) = false
    /\ (PyStr.contains "<" s = false -> PyStr.contains ">" s = false ->
        html_escape s = s)
    /\ html_escape (html_escape s) = html_escape s.
Proof.
  intros s. destruct (html_escape_clean s) as [H1 H2].
  assert (Hid : forall t, PyStr.contains "<" t = false ->
                          PyStr.contains ">" t = false -> html_escape t = t).
  { intros t Ha Hb. unfold html_escape.
    now rewrite (replace_absent "<" _ t Ha), (replace_absent ">" _ t Hb). }
  repeat split; try assumption.
  - apply Hid.
  - now apply Hid.
Qed.

Lemma html_escape_properties_witness :
  html_escape "IList of T" = "IList of T".
Proof.
  apply (html_escape_properties "IList of T"); reflexivity.
Defined.

(** X9.  [file_escape] leaves no '<', no '>' and no space in its result,
    changes nothing in a text that has none of them, and applying it twice
    is the same as applying it once. *)
Theorem file_escape_properties :
  forall s : string,
    PyStr.contains "<" (file_escape s) = false
    /\ PyStr.contains ">" (file_escape s) = false
    /\ PyStr.contains " " (file_escape s) = false
    /\ (PyStr.contains "<" s = false -> PyStr.contains ">" s = false ->
        PyStr.contains " " s = false -> file_escape s = s)
    /\ file_escape (file_escape s) = file_escape s.
Proof.
  intros s. destruct (file_escape_clean s) as (H1 & H2 & H3).
  assert (Hid : forall t, PyStr.contains "<" t = false ->
                          PyStr.contains ">" t = false ->
                          PyStr.contains " " t = false -> file_escape t = t).
  { intros t Ha Hb Hc. unfold file_escape.
    now rewrite (replace_absent "<" _ t Ha), (replace_absent ">" _ t Hb),
      (replace_absent " " _ t Hc). }
  repeat split; try assumption.
  - apply Hid.
  - now apply Hid.
Qed.

Lemma file_escape_properties_witness :
  file_escape "../N/Classes/T`1" = "../N/Classes/T`1".
Proof.
  apply (file_escape_properties "../N/Classes/T`1"); reflexivity.
Defined.

(** ** Further properties of [create_link] *)

Lemma resolve_reference_elem (items : list Item) (u : string) (r : Item) :
  resolve_reference items u = Some r -> r ∈ items.
Proof.
  unfold resolve_reference.
  destruct (find_by_uid items u) as [r0|] eqn:Hd.
  - intros [= <-]. now apply (find_by_uid_elem _ u).
  - destruct (PyStr.contains "{" u); [| discriminate].
    destruct (negb (PyStr.find "{" u =? -1) && negb (PyStr.rfind "}" u =? -1));
      [| discriminate].
    apply find_by_uid_elem.
Qed.

Lemma groupable_count_pos (items : list Item) (r : Item) :
  r ∈ items -> is_type_kind (type r) = true ->
  1 <= groupable_count items (namespace r).
Proof.
  unfold groupable_count. intros Hin Hk.
  induction Hin as [r l|r y l Hin IH]; simpl.
  - rewrite Hk, bool_decide_eq_true_2 by reflexivity. simpl. lia.
  - specialize (IH Hk).
    destruct (is_type_kind (type y) && bool_decide (namespace y = namespace r));
      simpl length; lia.
Qed.

(** X10.  With a grouping function that answers [false] for every
    namespace (the namespace pages and the index page pass such a function,
    and so does a configuration without grouping), [create_link] never
    raises. *)
Theorem create_link_total_without_grouping :
  forall (uid : string) (g : bool) (items : list Item) (nht : string -> bool)
         (config : Config) (name_only idx : bool),
    ((forall ns, nht ns = false) ->
       exists s, create_link uid g items nht config name_only idx = Ok s)
    /\ (forall type_counts,
          (types_grouping config = None
           \/ exists tg, types_grouping config = Some tg /\ enabled tg = false) ->
          exists s,
            create_link uid g items (nht_func config type_counts) config
              name_only idx = Ok s).
Proof.
  intros uid g items nht config name_only idx.
  assert (H : forall f : string -> bool, (forall ns, f ns = false) ->
            exists s, create_link uid g items f config name_only idx = Ok s).
  { intros f Hf.
    destruct (create_link uid g items f config name_only idx) as [s|e] eqn:E;
      [now exists s |].
    apply create_link_raise in E.
    destruct E as (r & par & _ & _ & _ & _ & Hg & _).
    rewrite Hf in Hg. discriminate. }
  split; [apply H |].
  intros type_counts Hoff. apply H. intros ns.
  unfold nht_func, namespace_has_type_grouping.
  destruct Hoff as [-> | (tg & -> & ->)]; reflexivity.
Qed.

Lemma create_link_total_without_grouping_witness :
  (exists s, create_link "N.M" false [ns_N; method_of_namespace]
               (fun _ => false) (plain_config false None) false false = Ok s)
  /\ (exists s, create_link "N.M" false [ns_N; method_of_namespace]
                  (nht_func (plain_config false None) ∅)
                  (plain_config false None) false false = Ok s).
Proof.
  destruct (create_link_total_without_grouping "N.M" false
              [ns_N; method_of_namespace] (fun _ => false)
              (plain_config false None) false false) as [H1 H2].
  split.
  - apply H1. reflexivity.
  - apply H2. left. reflexivity.
Defined.

(** X11.  The [name_only] flag changes the text between the brackets and
    nothing else: the target of the link, the inert rendering and the
    exception are the same for both values. *)
Theorem name_only_changes_display_only :
  forall (uid : string) (g : bool) (items : list Item) (nht : string -> bool)
         (config : Config) (idx : bool) (reference : Item),
    resolve_reference items uid = Some reference ->
    (exists target, forall name_only : bool,
        create_link uid g items nht config name_only idx
        = Ok ("[" +:+ html_escape (if name_only then name reference
                                   else full_name reference)
                +:+ "](" +:+ target +:+ ")"))
    \/ (forall name_only : bool,
          create_link uid g items nht config name_only idx
          = Ok (inert_code_span uid))
    \/ (exists e, forall name_only : bool,
          create_link uid g items nht config name_only idx = Raise e).
Proof.
  intros uid g items nht config idx reference Hr.
  unfold create_link. rewrite Hr.
  set (dots := if idx then "./" else if g then "../../" else "../").
  set (extension := if idx then ".md" else "").
  destruct (is_type_kind (type reference)) eqn:Hk.
  - destruct (get_type_path_part_known _ Hk) as [d Hd]. rewrite Hd.
    left. destruct (nht (namespace reference)).
    + exists (file_escape (dots +:+ namespace reference +:+ "/" +:+ d +:+ "/"
                             +:+ name reference +:+ extension)).
      intros no. reflexivity.
    + exists (file_escape (dots +:+ namespace reference +:+ "/"
                             +:+ name reference +:+ extension)).
      intros no. reflexivity.
  - destruct (decide (type reference = "Namespace")) as [Hn|Hn].
    + left. destruct (rewrite_interlinks config), idx.
      * exists (file_escape (dots +:+ name reference +:+ "/"
                               +:+ name reference +:+ extension)).
        intros no. reflexivity.
      * exists (file_escape (dots +:+ name reference)).
        intros no. reflexivity.
      * exists (file_escape (dots +:+ name reference +:+ "/"
                               +:+ name reference +:+ extension)).
        intros no. reflexivity.
      * exists (file_escape (dots +:+ name reference +:+ "/"
                               +:+ name reference +:+ extension)).
        intros no. reflexivity.
    + destruct (find_by_uid items (parent reference)) as [par|];
        [| right; left; reflexivity].
      set (anchor := PyStr.replace "?" ""
                       (PyStr.replace ")" ""
                          (PyStr.replace "(" "" (PyStr.lower (name reference))))).
      destruct (nht (namespace par)).
      * destruct (get_type_path_part (type par)) as [d|e].
        -- left.
           exists (file_escape (dots +:+ namespace reference +:+ ("/" +:+ d)
                                  +:+ "/" +:+ name par +:+ extension)
                   +:+ "#" +:+ anchor).
           intros no. simpl. now rewrite !append_assoc.
        -- right; right. exists e. reflexivity.
      * left.
        exists (file_escape (dots +:+ namespace reference +:+ ""
                               +:+ "/" +:+ name par +:+ extension)
                +:+ "#" +:+ anchor).
        intros no. simpl. now rewrite !append_assoc.
Qed.

Lemma name_only_changes_display_only_witness :
  (exists target, forall name_only : bool,
      create_link "N.T`1" false [ns_N; class_T1; method_M] (fun _ => true)
        (plain_config false None) name_only false
      = Ok ("[" +:+ html_escape (if name_only then "T<T>" else "N.T<T>")
              +:+ "](" +:+ target +:+ ")"))
  \/ (forall name_only : bool,
        create_link "N.T`1" false [ns_N; class_T1; method_M] (fun _ => true)
          (plain_config false None) name_only false
        = Ok (inert_code_span "N.T`1"))
  \/ (exists e, forall name_only : bool,
        create_link "N.T`1" false [ns_N; class_T1; method_M] (fun _ => true)
          (plain_config false None) name_only false = Raise e).
Proof.
  apply (name_only_changes_display_only "N.T`1" false [ns_N; class_T1; method_M]
           (fun _ => true) (plain_config false None) false class_T1).
  reflexivity.
Defined.

(** X12.  A link to a type or to a namespace contains neither '<' nor '>',
    so the [html_escape] that the namespace pages and the index page apply
    to the whole link leaves it as it is. *)
Theorem type_and_namespace_links_have_no_angle_brackets :
  forall (uid : string) (g : bool) (items : list Item) (nht : string -> bool)
         (config : Config) (name_only idx : bool) (reference : Item),
    resolve_reference items uid = Some reference ->
    is_type_kind (type reference) = true \/ type reference = "Namespace" ->
    exists link,
      create_link uid g items nht config name_only idx = Ok link
      /\ PyStr.contains "<" link = false
      /\ PyStr.contains ">" link = false
      /\ html_escape link = link.
Proof.
  intros uid g items nht config name_only idx reference Hr Hkind.
  assert (Hshape : exists d p,
    create_link uid g items nht config name_only idx
    = Ok ("[" +:+ html_escape d +:+ "](" +:+ file_escape p +:+ ")")).
  { unfold create_link. rewrite Hr.
    destruct (is_type_kind (type reference)) eqn:Hk.
    - destruct (get_type_path_part_known _ Hk) as [dir Hd]. rewrite Hd.
      destruct (nht (namespace reference)); do 2 eexists; reflexivity.
    - destruct Hkind as [Hkind | Hn]; [discriminate |].
      destruct (decide (type reference = "Namespace")); [| contradiction].
      destruct (rewrite_interlinks config), idx; do 2 eexists; reflexivity. }
  destruct Hshape as (d & p & ->).
  destruct (html_escape_clean d) as [Hd1 Hd2].
  destruct (file_escape_clean p) as (Hp1 & Hp2 & _).
  assert (H1 : PyStr.contains "<"
                 ("[" +:+ html_escape d +:+ "](" +:+ file_escape p +:+ ")") = false).
  { now rewrite !contains_append, Hd1, Hp1. }
  assert (H2 : PyStr.contains ">"
                 ("[" +:+ html_escape d +:+ "](" +:+ file_escape p +:+ ")") = false).
  { now rewrite !contains_append, Hd2, Hp2. }
  eexists. split; [reflexivity |]. split; [exact H1 |]. split; [exact H2 |].
  unfold html_escape at 1.
  now rewrite (replace_absent "<" _ _ H1), (replace_absent ">" _ _ H2).
Qed.

Lemma type_and_namespace_links_have_no_angle_brackets_witness :
  exists link,
    create_link "N.T`1" false [ns_N; class_T1; method_M] (fun _ => false)
      (plain_config false None) true false = Ok link
    /\ PyStr.contains "<" link = false
    /\ PyStr.contains ">" link = false
    /\ html_escape link = link.
Proof.
  apply (type_and_namespace_links_have_no_angle_brackets "N.T`1" false
           [ns_N; class_T1; method_M] (fun _ => false) (plain_config false None)
           true false class_T1); [reflexivity | left; reflexivity].
Defined.

(** X13.  With grouping enabled and the counts taken from the graph itself,
    the link to a type goes through the kind directory exactly when the
    number of Class, Interface, Enum, Struct and Delegate items of the
    type's own namespace reaches the configured minimum; the caller's
    namespace plays no part. *)
Theorem type_link_follows_namespace_size :
  forall (uid : string) (g : bool) (items : list Item) (config : Config)
         (tg : ConfigTypesGrouping) (name_only idx : bool) (reference : Item),
    types_grouping config = Some tg -> enabled tg = true ->
    resolve_reference items uid = Some reference ->
    is_type_kind (type reference) = true ->
    exists dir,
      get_type_path_part (type reference) = Ok dir
      /\ create_link uid g items (nht_func config (count_types items)) config
           name_only idx
         = Ok ("[" +:+ html_escape (if name_only then name reference
                                    else full_name reference)
                 +:+ "]("
                 +:+ file_escape
                       ((if idx then "./" else if g then "../../" else "../")
                          +:+ namespace reference +:+ "/"
                          +:+ (if groupable_count items (namespace reference)
                                  >=? min_count tg
                               then dir +:+ "/" else "")
                          +:+ name reference
                          +:+ (if idx then ".md" else ""))
                 +:+ ")").
Proof.
  intros uid g items config tg name_only idx reference Htg Hen Hr Hk.
  destruct (get_type_path_part_known _ Hk) as [dir Hd].
  exists dir. split; [exact Hd |].
  pose proof (groupable_count_pos items reference
                (resolve_reference_elem _ _ _ Hr) Hk) as Hpos.
  unfold create_link. rewrite Hr, Hk, Hd.
  unfold nht_func, namespace_has_type_grouping. rewrite Htg, Hen. simpl negb.
  cbv iota. rewrite count_types_lookup.
  destruct (Z.eqb_spec (groupable_count items (namespace reference)) 0);
    [lia |].
  destruct (groupable_count items (namespace reference) >=? min_count tg);
    simpl; [now rewrite !append_assoc | reflexivity].
Qed.

Lemma type_link_follows_namespace_size_witness :
  create_link "Foo.B" false foo_classes
    (nht_func (plain_config false (grouping_on 3)) (count_types foo_classes))
    (plain_config false (grouping_on 3)) false false
  = Ok "[Foo.B](../Foo/Classes/B)"
  /\ create_link "Foo.B" false foo_classes
       (nht_func (plain_config false (grouping_on 4)) (count_types foo_classes))
       (plain_config false (grouping_on 4)) false false
     = Ok "[Foo.B](../Foo/B)".
Proof.
  destruct (type_link_follows_namespace_size "Foo.B" false foo_classes
              (plain_config false (grouping_on 3)) (mkConfigTypesGrouping true 3)
              false false (plain_item "Foo.B" "B" "Foo.B" "Class" "Foo" "Foo")
              eq_refl eq_refl eq_refl eq_refl) as (d3 & Hd3 & H3).
  injection Hd3 as <-.
  destruct (type_link_follows_namespace_size "Foo.B" false foo_classes
              (plain_config false (grouping_on 4)) (mkConfigTypesGrouping true 4)
              false false (plain_item "Foo.B" "B" "Foo.B" "Class" "Foo" "Foo")
              eq_refl eq_refl eq_refl eq_refl) as (d4 & Hd4 & H4).
  split; [exact H3 | exact H4].
Defined.

(** X14.  Neither the inert rendering of an unresolved reference nor the
    bullet of an unmatched extension method contains '{' or '}'. *)
Theorem inert_text_has_no_braces :
  forall (config : Config) (item : Item) (items : list Item)
         (type_counts : gmap string Z) (text : string),
    (PyStr.contains "{" (inert_code_span text) = false
     /\ PyStr.contains "}" (inert_code_span text) = false)
    /\ (List.find (matches_extension_method text) items = None ->
        exists line,
          extension_method_line config item items type_counts text = Ok line
          /\ PyStr.contains "{" line = false
          /\ PyStr.contains "}" line = false).
Proof.
  intros config item items type_counts text. split.
  - unfold inert_code_span. rewrite !contains_append. split.
    + rewrite (contains_replace_other "{" "}" ">");
        [reflexivity | reflexivity | now apply contains_replace_old].
    + now rewrite (contains_replace_old "}" ">").
  - intros Hf. unfold extension_method_line. rewrite Hf.
    eexists. split; [reflexivity |]. rewrite !contains_append. split.
    + rewrite (contains_replace_other "{" "}" "&#125;");
        [reflexivity | reflexivity | now apply contains_replace_old].
    + now rewrite (contains_replace_old "}" "&#125;").
Qed.

Lemma inert_text_has_no_braces_witness :
  exists line,
    extension_method_line (plain_config false None) (class_with None None None)
      [ns_N; extension_item] ∅ "X.Y{T}" = Ok line
    /\ PyStr.contains "{" line = false
    /\ PyStr.contains "}" line = false.
Proof.
  apply (inert_text_has_no_braces (plain_config false None)
           (class_with None None None) [ns_N; extension_item] ∅ "X.Y{T}").
  reflexivity.
Defined.

(** ** Properties of the member listings *)

Lemma list_filter_sublist {A : Type} (f : A -> bool) (l : list A) :
  List.filter f l `sublist_of` l.
Proof.
  induction l as [|x l IH]; simpl; [constructor |].
  destruct (f x); now constructor.
Qed.

Lemma list_filter_elem {A : Type} (f : A -> bool) (l : list A) (x : A) :
  x ∈ List.filter f l <-> x ∈ l /\ f x = true.
Proof. rewrite !list_elem_of_In. apply List.filter_In. Qed.

(** X15.  The four listings of a type page (properties, fields, methods,
    events) together hold exactly the items whose parent is the page's uid
    and whose kind is one of the four, each item once, and each listing
    keeps the order of the graph. *)
Theorem member_listings_partition :
  forall (items : list Item) (u : string),
    (forall m,
        m ∈ get_properties items u ++ get_fields items u
              ++ get_methods items u ++ get_events items u
        <-> m ∈ items /\ parent m = u /\ type m ∈ member_kinds)
    /\ (length (get_properties items u) + length (get_fields items u)
        + length (get_methods items u) + length (get_events items u)
        = length (List.filter
                    (fun i => bool_decide (parent i = u)
                              && bool_decide (type i ∈ member_kinds)) items))%nat
    /\ get_properties items u `sublist_of` items
    /\ get_fields items u `sublist_of` items
    /\ get_methods items u `sublist_of` items
    /\ get_events items u `sublist_of` items.
Proof.
  intros items u. unfold get_properties, get_fields, get_methods, get_events.
  split; [| split; [| repeat split; apply list_filter_sublist]].
  - intros m. rewrite !elem_of_app, !list_filter_elem.
    unfold member_kinds. rewrite !elem_of_cons, elem_of_nil.
    rewrite !andb_true_iff, !bool_decide_eq_true. tauto.
  - induction items as [|x items IH]; [reflexivity |].
    assert (Hmem : type x ∈ member_kinds
                   <-> type x = "Property" \/ type x = "Field"
                       \/ type x = "Method" \/ type x = "Event").
    { unfold member_kinds. rewrite !elem_of_cons, elem_of_nil. tauto. }
    simpl. repeat case_bool_decide; simpl; try lia; try congruence;
      exfalso; intuition congruence.
Qed.

(** ** Properties of the output path *)

Lemma join_step_keeps_prefix (path b : string) :
  OsPath.starts_with_sep b = false ->
  exists rest, OsPath.join_step path b = path +:+ rest.
Proof.
  intros Hb. unfold OsPath.join_step. rewrite Hb.
  destruct (bool_decide (path = "") || OsPath.ends_with_sep path); eauto.
Qed.

Lemma join_step_ends_with (path b : string) :
  exists pre, OsPath.join_step path b = pre +:+ b.
Proof.
  unfold OsPath.join_step. destruct (OsPath.starts_with_sep b).
  - now exists "".
  - destruct (bool_decide (path = "") || OsPath.ends_with_sep path).
    + now exists path.
    + exists (path +:+ "/"). now rewrite append_assoc.
Qed.

Lemma page_file_name_no_leading_sep (item : Item) :
  OsPath.starts_with_sep (name item) = false ->
  OsPath.starts_with_sep (page_file_name item) = false.
Proof.
  unfold page_file_name. destruct (name item) as [|a s]; [reflexivity |].
  simpl. intros Ha.
  destruct (Ascii.eqb a "<") eqn:E1; [reflexivity |].
  simpl. destruct (Ascii.eqb a ">") eqn:E2; [reflexivity |].
  rewrite append_cons. exact Ha.
Qed.

Lemma kind_directory_no_leading_sep (k d : string) :
  get_type_path_part k = Ok d -> OsPath.starts_with_sep d = false.
Proof.
  unfold get_type_path_part. repeat case_decide; intros [= <-]; reflexivity.
Qed.

(** X16.  Computing the path of a type page raises exactly when the page is
    grouped and the item's kind is none of the five kinds that have a
    directory; the error names the kind. *)
Theorem type_output_path_errors :
  forall (config : Config) (item : Item) (type_counts : gmap string Z),
    (is_grouped_type config item type_counts = true ->
     is_type_kind (type item) = false ->
     type_output_path config item type_counts
     = Raise (ValueError ("Unknown type: " +:+ type item)))
    /\ (is_grouped_type config item type_counts = false
        \/ is_type_kind (type item) = true ->
        exists p, type_output_path config item type_counts = Ok p).
Proof.
  intros config item type_counts. unfold type_output_path. split.
  - intros -> Hk. now rewrite (get_type_path_part_unknown _ Hk).
  - intros [-> | Hk]; [eauto |].
    destruct (get_type_path_part_known _ Hk) as [d ->].
    destruct (is_grouped_type config item type_counts); eauto.
Qed.

Lemma type_output_path_errors_witness :
  type_output_path (plain_config false (grouping_on 1))
    (plain_item "Foo.R" "R" "Foo.R" "Record" "Foo" "Foo")
    (count_types foo_classes)
  = Raise (ValueError "Unknown type: Record")
  /\ (exists p,
        type_output_path (plain_config false None)
          (plain_item "Foo.R" "R" "Foo.R" "Record" "Foo" "Foo")
          (count_types foo_classes) = Ok p)
  /\ (exists p,
        type_output_path (plain_config false (grouping_on 1)) foo_A
          (count_types foo_classes) = Ok p).
Proof.
  split.
  { apply (type_output_path_errors (plain_config false (grouping_on 1))
             (plain_item "Foo.R" "R" "Foo.R" "Record" "Foo" "Foo")
             (count_types foo_classes)); reflexivity. }
  split.
  { apply (type_output_path_errors (plain_config false None)
             (plain_item "Foo.R" "R" "Foo.R" "Record" "Foo" "Foo")
             (count_types foo_classes)). left. reflexivity. }
  apply (type_output_path_errors (plain_config false (grouping_on 1)) foo_A
           (count_types foo_classes)). right. reflexivity.
Defined.

(** X17.  The path of a type page always ends with the file name, which
    has no '<' and no '>'.  It starts with the configured output directory
    provided neither the namespace nor the name starts with '/'; a
    namespace that starts with '/' replaces the output directory. *)
Theorem type_output_path_location :
  forall (config : Config) (item : Item) (type_counts : gmap string Z)
         (p : string),
    type_output_path config item type_counts = Ok p ->
    (exists pre, p = pre +:+ page_file_name item)
    /\ PyStr.contains "<" (page_file_name item) = false
    /\ PyStr.contains ">" (page_file_name item) = false
    /\ (OsPath.starts_with_sep (namespace item) = false ->
        OsPath.starts_with_sep (name item) = false ->
        exists rest, p = output_path config +:+ rest)
    /\ (OsPath.starts_with_sep (namespace item) = true ->
        OsPath.starts_with_sep (name item) = false ->
        exists rest, p = namespace item +:+ rest).
Proof.
  intros config item type_counts p Hp.
  assert (Hshape : exists mid,
    (forall d, d ∈ mid -> OsPath.starts_with_sep d = false)
    /\ p = OsPath.join (output_path config)
             (namespace item :: mid ++ [page_file_name item])).
  { unfold type_output_path in Hp.
    destruct (is_grouped_type config item type_counts).
    - destruct (get_type_path_part (type item)) as [d|e] eqn:Hd;
        [| discriminate].
      injection Hp as <-. exists [d]. split; [| reflexivity].
      intros d' Hd'. apply list_elem_of_singleton in Hd'. subst d'.
      now apply (kind_directory_no_leading_sep (type item)).
    - injection Hp as <-. exists []. split; [| reflexivity].
      intros d Hd. now apply elem_of_nil in Hd. }
  destruct Hshape as (mid & Hmid & ->).
  assert (Hfold : forall (l : list string) (a : string),
    (forall d, d ∈ l -> OsPath.starts_with_sep d = false) ->
    exists rest, foldl OsPath.join_step a l = a +:+ rest).
  { induction l as [|b l IH]; intros a Hl; simpl.
    - exists "". now rewrite append_empty_r.
    - destruct (join_step_keeps_prefix a b (Hl b ltac:(left))) as [r1 ->].
      destruct (IH (a +:+ r1) (fun d Hd => Hl d ltac:(now right))) as [r2 ->].
      exists (r1 +:+ r2). now rewrite append_assoc. }
  split; [| split; [| split; [| split]]].
  - unfold OsPath.join.
    change (namespace item :: mid ++ [page_file_name item])
      with ((namespace item :: mid) ++ [page_file_name item]).
    rewrite foldl_app. simpl. apply join_step_ends_with.
  - unfold page_file_name. rewrite contains_append.
    rewrite (contains_replace_other "<" ">" "`");
      [reflexivity | reflexivity | now apply contains_replace_old].
  - unfold page_file_name. rewrite contains_append.
    now rewrite (contains_replace_old ">" "`").
  - intros Hns Hname. unfold OsPath.join. apply Hfold.
    intros d Hd. rewrite elem_of_cons, elem_of_app in Hd.
    destruct Hd as [-> | [Hd | Hd]]; [assumption | now apply Hmid |].
    apply list_elem_of_singleton in Hd. subst d.
    now apply page_file_name_no_leading_sep.
  - intros Hns Hname. unfold OsPath.join. simpl.
    unfold OsPath.join_step at 2. rewrite Hns. apply Hfold.
    intros d Hd. rewrite elem_of_app in Hd.
    destruct Hd as [Hd | Hd]; [now apply Hmid |].
    apply list_elem_of_singleton in Hd. subst d.
    now apply page_file_name_no_leading_sep.
Qed.

Lemma type_output_path_location_witness :
  (exists rest, "./out/Foo/Classes/A`T`.md" = "./out" +:+ rest)
  /\ (exists rest, "/etc/X.md" = "/etc" +:+ rest).
Proof.
  split.
  - apply (type_output_path_location (plain_config false (grouping_on 2))
             foo_A (count_types foo_classes) "./out/Foo/Classes/A`T`.md");
      reflexivity.
  - apply (type_output_path_location (plain_config false None)
             (plain_item "/etc.X" "X" "X" "Class" "/etc" "")
             ∅ "/etc/X.md"); reflexivity.
Defined.

(** ** Properties of the inheritance chain and of the Implements recap *)

Lemma join_separated_by (sep : string) (links : list string) :
  PyStr.join (separated_by sep links) = PyStr.join_with sep links.
Proof.
  induction links as [|l [|l' rest] IH]; [reflexivity | |].
  - unfold PyStr.join. simpl. apply append_empty_r.
  - change (separated_by sep (l :: l' :: rest))
      with (l :: sep :: separated_by sep (l' :: rest)).
    change (PyStr.join_with sep (l :: l' :: rest))
      with (l +:+ sep +:+ PyStr.join_with sep (l' :: rest)).
    rewrite <- IH. reflexivity.
Qed.

Lemma append_inheritance_links_ok config item items type_counts
    (refs : list string) :
  forall (links : list string) (i total : nat) (sb : list string),
    mapM (page_link config item items type_counts) refs = Ok links ->
    (i + length refs = total)%nat ->
    append_inheritance_links config item items type_counts i total refs sb
    = Ok (sb ++ separated_by " -> " links).
Proof.
  induction refs as [|r rest IH]; intros links i total sb Hm Hlen.
  - simpl in Hm. injection Hm as <-. simpl. now rewrite app_nil_r.
  - apply mapM_cons_ok in Hm. destruct Hm as (y & k & Hy & Hk & ->).
    simpl. rewrite Hy. simpl.
    destruct rest as [|r2 rest'].
    + simpl in Hk. injection Hk as <-. simpl in Hlen.
      rewrite bool_decide_eq_false_2 by lia. reflexivity.
    + rewrite bool_decide_eq_true_2 by (simpl in Hlen; lia).
      rewrite (IH k (S i) total _ Hk) by (simpl in *; lia).
      apply mapM_cons_ok in Hk. destruct Hk as (y2 & k' & _ & _ & ->).
      f_equal. rewrite <- !app_assoc. reflexivity.
Qed.

(** X18.  The inheritance line of a type page is written only for a chain
    of two or more ancestors; it is then the heading followed by the links
    joined by " -> " and a blank line.  No chain, an empty chain and a
    one-entry chain write nothing. *)
Theorem inheritance_chain_rendering :
  forall (config : Config) (item : Item) (items : list Item)
         (type_counts : gmap string Z) (sb : list string),
    (inheritance item = None ->
       render_inheritance config item items type_counts sb = Ok sb)
    /\ (forall chain,
          inheritance item = Some chain -> (length chain <= 1)%nat ->
          render_inheritance config item items type_counts sb = Ok sb)
    /\ (forall chain links,
          inheritance item = Some chain -> (1 < length chain)%nat ->
          mapM (page_link config item items type_counts) chain = Ok links ->
          exists out,
            render_inheritance config item items type_counts sb = Ok out
            /\ PyStr.join out
               = PyStr.join sb +:+ "**Inheritance:** "
                   +:+ PyStr.join_with " -> " links +:+ nl +:+ nl).
Proof.
  intros config item items type_counts sb. unfold render_inheritance.
  split; [intros ->; reflexivity |].
  split.
  - intros chain -> Hlen.
    replace (1 <? length chain)%nat with false
      by (symmetry; apply Nat.ltb_ge; exact Hlen).
    reflexivity.
  - intros chain links -> Hlen Hm.
    replace (1 <? length chain)%nat with true
      by (symmetry; apply Nat.ltb_lt; exact Hlen).
    rewrite (append_inheritance_links_ok _ _ _ _ chain links 0 (length chain)
               _ Hm eq_refl).
    simpl. eexists. split; [reflexivity |].
    rewrite !join_app, join_separated_by.
    unfold PyStr.join. simpl. rewrite !append_empty_r.
    now rewrite !append_assoc.
Qed.

Lemma inheritance_chain_rendering_witness :
  render_inheritance (plain_config false None)
    (mkItem "N.B" "T:N.B" "B" "N" [] [] "" "B" "B" "N.B" "Class" [] "N"
       None None (Some ["System.Object"]) None None None None)
    [ns_N; class_T1] ∅ ["page"]
  = Ok ["page"]
  /\ (exists out,
        render_inheritance (plain_config false None)
          (mkItem "N.B" "T:N.B" "B" "N" [] [] "" "B" "B" "N.B" "Class" [] "N"
             None None (Some ["System.Object"; "N.T`1"]) None None None None)
          [ns_N; class_T1] ∅ [] = Ok out
        /\ PyStr.join out
           = "**Inheritance:** `System.Object` -> [N.T&lt;T&gt;](../N/T`T`)"
               +:+ nl +:+ nl).
Proof.
  split.
  - destruct (inheritance_chain_rendering (plain_config false None)
                (mkItem "N.B" "T:N.B" "B" "N" [] [] "" "B" "B" "N.B" "Class" []
                   "N" None None (Some ["System.Object"]) None None None None)
                [ns_N; class_T1] ∅ ["page"]) as (_ & H & _).
    apply (H ["System.Object"]); [reflexivity | simpl; lia].
  - destruct (inheritance_chain_rendering (plain_config false None)
                (mkItem "N.B" "T:N.B" "B" "N" [] [] "" "B" "B" "N.B" "Class" []
                   "N" None None (Some ["System.Object"; "N.T`1"]) None None
                   None None)
                [ns_N; class_T1] ∅ []) as (_ & _ & H).
    apply (H ["System.Object"; "N.T`1"]
             ["`System.Object`"; "[N.T&lt;T&gt;](../N/T`T`)"]);
      [reflexivity | simpl; lia | reflexivity].
Defined.

Lemma append_implements_bullets_mapM config item items type_counts
    (impls : list string) :
  forall sb : list string,
    append_implements_bullets config item items type_counts impls sb
    = (links ← mapM (page_link config item items type_counts) impls;
       Ok (sb ++ List.map (fun link => "* " +:+ link +:+ nl) links)).
Proof.
  induction impls as [|r rest IH]; intros sb; simpl.
  - now rewrite app_nil_r.
  - destruct (page_link config item items type_counts r) as [l|x];
      simpl; [| reflexivity].
    rewrite IH.
    destruct (mapM (page_link config item items type_counts) rest) as [ls|x];
      simpl; [| reflexivity].
    now rewrite <- app_assoc.
Qed.

(** X19.  When every link of a non-empty implemented-interface list
    renders, the Implements block near the top of a type page succeeds and
    the Implements section near its end is its heading followed by one
    bullet per interface, in order, each carrying that link.  The section
    raises exactly when rendering the links raises, with the same
    exception. *)
Theorem implements_block_and_section_agree :
  forall (config : Config) (item : Item) (items : list Item)
         (type_counts : gmap string Z) (sb sb' : list string) (impls : list string),
    implements item = Some impls -> impls <> [] ->
    (forall links,
        mapM (page_link config item items type_counts) impls = Ok links ->
        (exists out, render_implements config item items type_counts sb = Ok out)
        /\ render_implements_section config item items type_counts sb'
           = Ok (sb' ++ (nl +:+ "## Implements" +:+ nl +:+ nl)
                   :: List.map (fun link => "* " +:+ link +:+ nl) links))
    /\ (forall e,
          render_implements_section config item items type_counts sb' = Raise e
          <-> mapM (page_link config item items type_counts) impls = Raise e).
Proof.
  intros config item items type_counts sb sb' impls Hi Hne.
  destruct impls as [|i0 ir]; [contradiction |].
  unfold render_implements_section, render_implements. rewrite Hi.
  rewrite append_implements_bullets_mapM.
  split.
  - intros links Hm. rewrite Hm. split.
    + rewrite (append_links_ok _ _ _ _ _ links 0 _ _ Hm eq_refl). simpl.
      destruct (8 <? _)%nat; eexists; reflexivity.
    + simpl. now rewrite <- app_assoc.
  - intros e.
    destruct (mapM (page_link config item items type_counts) (i0 :: ir));
      simpl; split; congruence.
Qed.

Lemma implements_block_and_section_agree_witness :
  render_implements_section (plain_config false None)
    (class_with None (Some ["System.IDisposable"; "N.T`1"]) None)
    [ns_N; class_T1] ∅ []
  = Ok [ nl +:+ "## Implements" +:+ nl +:+ nl;
         "* `System.IDisposable`" +:+ nl;
         "* [N.T&lt;T&gt;](../N/T`T`)" +:+ nl ].
Proof.
  destruct (implements_block_and_section_agree (plain_config false None)
              (class_with None (Some ["System.IDisposable"; "N.T`1"]) None)
              [ns_N; class_T1] ∅ [] [] ["System.IDisposable"; "N.T`1"]
              eq_refl ltac:(discriminate)) as [H _].
  apply (H ["`System.IDisposable`"; "[N.T&lt;T&gt;](../N/T`T`)"]).
  reflexivity.
Defined.

(** ** Properties of the index page *)

Lemma create_link_from_index_ignores_config (u : string) (g : bool)
    (items : list Item) (nht : string -> bool) (config config' : Config)
    (name_only : bool) :
  create_link u g items nht config name_only true
  = create_link u g items nht config' name_only true.
Proof.
  unfold create_link.
  destruct (resolve_reference items u) as [r|]; [| reflexivity].
  destruct (is_type_kind (type r)); [reflexivity |].
  destruct (decide (type r = "Namespace")); [| reflexivity].
  destruct (rewrite_interlinks config), (rewrite_interlinks config');
    reflexivity.
Qed.

Lemma index_line_total (config : Config) (items : list Item) (ns : Item) :
  exists line, index_line config items ns = Ok line.
Proof.
  unfold index_line.
  destruct (create_link (uid ns) false items (fun _ => false) config false true)
    as [l|e] eqn:E; [simpl; eauto |].
  apply create_link_raise in E.
  destruct E as (r & par & _ & _ & _ & _ & Hg & _). discriminate.
Qed.

Lemma mapM_total {A B : Type} (f : A -> result B) (l : list A) :
  (forall x, exists y, f x = Ok y) ->
  exists ys, mapM f l = Ok ys /\ length ys = length l.
Proof.
  intros Hf. induction l as [|x l (ys & Hys & Hlen)].
  - now exists [].
  - destruct (Hf x) as [y Hy]. exists (y :: ys). simpl.
    rewrite Hy. simpl. rewrite Hys. simpl. now rewrite Hlen.
Qed.

Lemma append_index_lines_mapM (config : Config) (items : list Item)
    (namespaces : list Item) :
  forall sb : list string,
    append_index_lines config items namespaces sb
    = (lines ← mapM (index_line config items) namespaces; Ok (sb ++ lines)).
Proof.
  induction namespaces as [|x rest IH]; intros sb; simpl.
  - now rewrite app_nil_r.
  - destruct (index_line config items x) as [l|e]; simpl; [| reflexivity].
    rewrite IH.
    destruct (mapM (index_line config items) rest) as [ls|e];
      simpl; [| reflexivity].
    now rewrite <- app_assoc.
Qed.

Lemma insert_by_name_perm (x : Item) (l : list Item) :
  insert_by_name x l ≡ₚ x :: l.
Proof.
  induction l as [|y l IH]; simpl; [reflexivity |].
  destruct (String.leb (name x) (name y)); [reflexivity |].
  rewrite IH. apply perm_swap.
Qed.

Lemma sorted_by_name_perm (l : list Item) : sorted_by_name l ≡ₚ l.
Proof.
  unfold sorted_by_name. induction l as [|x l IH]; simpl; [reflexivity |].
  now rewrite insert_by_name_perm, IH.
Qed.

Lemma insert_by_name_sorted (x : Item) (l : list Item) :
  Sorted (fun a b => String.leb (name a) (name b) = true) l ->
  Sorted (fun a b => String.leb (name a) (name b) = true) (insert_by_name x l).
Proof.
  induction l as [|y l IH]; intros Hs; simpl.
  - repeat constructor.
  - destruct (String.leb (name x) (name y)) eqn:E.
    + constructor; [exact Hs |]. now constructor.
    + apply Sorted_inv in Hs. destruct Hs as [Hs Hhd].
      constructor; [now apply IH |].
      assert (Hyx : String.leb (name y) (name x) = true).
      { destruct (String.leb_total (name x) (name y)); congruence. }
      destruct l as [|z l]; simpl; [now constructor |].
      destruct (String.leb (name x) (name z)); constructor; [exact Hyx |].
      now apply HdRel_inv in Hhd.
Qed.

(** X20.  The index page never raises.  It is the eight heading pieces, one
    bullet per namespace item of the graph, and the two closing pieces; and
    it depends on the configuration only through the index slug, so the
    rewrite flag and the grouping settings do not change it. *)
Theorem index_page_content :
  forall (config : Config) (items : list Item),
    (exists lines,
        mapM (index_line config items)
          (sorted_by_name (namespace_items items)) = Ok lines
        /\ length lines = length (namespace_items items)
        /\ generate_index_markdown config items
           = Ok ([ "---" +:+ nl; "title: Index" +:+ nl;
                   "sidebar_label: Index" +:+ nl;
                   "sidebar_position: 0" +:+ nl;
                   "slug: " +:+ index_slug config +:+ nl; "---" +:+ nl;
                   "# API Index" +:+ nl; "## Namespaces" +:+ nl ]
                   ++ lines
                   ++ [ nl +:+ "---" +:+ nl;
                        "Generated using [DocFxMarkdownGen](https://github.com/Jan0660/DocFxMarkdownGen) v1.0.0."
                          +:+ nl ]))
    /\ (forall config',
          index_slug config' = index_slug config ->
          generate_index_markdown config' items
          = generate_index_markdown config items).
Proof.
  intros config items. split.
  - destruct (mapM_total (index_line config items)
                (sorted_by_name (namespace_items items))
                (index_line_total config items)) as (lines & Hm & Hlen).
    exists lines. split; [exact Hm |]. split.
    + rewrite Hlen. apply Permutation_length, sorted_by_name_perm.
    + unfold generate_index_markdown. rewrite append_index_lines_mapM.
      fold (namespace_items items). rewrite Hm. reflexivity.
  - intros config' Hslug. unfold generate_index_markdown.
    rewrite !append_index_lines_mapM, Hslug.
    assert (Hline : forall ns,
      index_line config' items ns = index_line config items ns).
    { intros ns. unfold index_line.
      now rewrite (create_link_from_index_ignores_config _ _ _ _ config' config). }
    assert (Hmap : forall l,
      mapM (index_line config' items) l = mapM (index_line config items) l).
    { induction l as [|x l IH]; [reflexivity |]. simpl.
      now rewrite Hline, IH. }
    now rewrite Hmap.
Qed.

Lemma index_page_content_witness :
  generate_index_markdown (plain_config true (grouping_on 1))
    [class_T1; ns_N; method_M]
  = generate_index_markdown (plain_config false None) [class_T1; ns_N; method_M].
Proof.
  apply (index_page_content (plain_config false None) [class_T1; ns_N; method_M]).
  reflexivity.
Defined.

(** X21.  The bullets of the index page are the namespace items of the
    graph in ascending order of their names, each once; the bullet of a
    namespace item that is the first item with its uid is "* ", the link
    "[full name](./name/name.md)" with both escapings applied, and a line
    break. *)
Theorem index_page_bullets :
  forall (config : Config) (items : list Item),
    sorted_by_name (namespace_items items) ≡ₚ namespace_items items
    /\ Sorted (fun a b => String.leb (name a) (name b) = true)
         (sorted_by_name (namespace_items items))
    /\ (forall ns,
          find_by_uid items (uid ns) = Some ns ->
          type ns = "Namespace" ->
          index_line config items ns
          = Ok ("* [" +:+ html_escape (full_name ns) +:+ "]("
                  +:+ file_escape ("./" +:+ name ns +:+ "/" +:+ name ns
                                     +:+ ".md")
                  +:+ ")" +:+ nl)).
Proof.
  intros config items. split; [apply sorted_by_name_perm |]. split.
  - unfold sorted_by_name.
    induction (namespace_items items) as [|x l IH]; simpl; [constructor |].
    now apply insert_by_name_sorted.
  - intros ns Hf Ht. unfold index_line, create_link.
    rewrite (resolve_reference_direct _ _ _ Hf), Ht. simpl.
    assert (Hlink : forall link,
      PyStr.contains "<" link = false -> PyStr.contains ">" link = false ->
      html_escape link = link).
    { intros link Ha Hb. unfold html_escape.
      now rewrite (replace_absent "<" _ _ Ha), (replace_absent ">" _ _ Hb). }
    destruct (html_escape_clean (full_name ns)) as [Hd1 Hd2].
    destruct (file_escape_clean
                ("./" +:+ name ns +:+ "/" +:+ name ns +:+ ".md"))
      as (Hp1 & Hp2 & _).
    destruct (rewrite_interlinks config); simpl;
      (rewrite Hlink;
       [now rewrite !append_assoc
       | now rewrite !contains_append, Hd1, Hp1
       | now rewrite !contains_append, Hd2, Hp2]).
Qed.

Lemma index_page_bullets_witness :
  index_line (plain_config true None) [class_T1; ns_N; method_M] ns_N
  = Ok ("* [N](./N/N.md)" +:+ nl).
Proof.
  apply (index_page_bullets (plain_config true None) [class_T1; ns_N; method_M]);
    reflexivity.
Defined.

(** ** Properties of the namespace page *)

(** X22.  On a namespace page the heading of a type never raises, and for
    a type that is the first item with its uid it is "### " and the link
    "[name](../namespace/name)" with both escapings applied: the kind
    directory is never part of it, also when the type's own page is written
    inside that directory. *)
Theorem namespace_page_heading :
  forall (config : Config) (items : list Item) (t : Item),
    (exists h, namespace_type_heading config items t = Ok h)
    /\ (find_by_uid items (uid t) = Some t ->
        is_type_kind (type t) = true ->
        namespace_type_heading config items t
        = Ok ("### [" +:+ html_escape (name t) +:+ "]("
                +:+ file_escape ("../" +:+ namespace t +:+ "/" +:+ name t)
                +:+ ")" +:+ nl)
        /\ forall type_counts,
             is_grouped_type config t type_counts = true ->
             exists dir,
               get_type_path_part (type t) = Ok dir
               /\ type_output_path config t type_counts
                  = Ok (OsPath.join (output_path config)
                          [namespace t; dir; page_file_name t])).
Proof.
  intros config items t. split.
  - unfold namespace_type_heading.
    destruct (create_link (uid t) false items (fun _ => false) config true false)
      as [l|e] eqn:E; [simpl; eauto |].
    apply create_link_raise in E.
    destruct E as (r & par & _ & _ & _ & _ & Hg & _). discriminate.
  - intros Hf Hk. split.
    + assert (Hl : create_link (uid t) false items (fun _ => false) config
                     true false
                   = Ok ("[" +:+ html_escape (name t) +:+ "]("
                           +:+ file_escape ("../" +:+ namespace t +:+ "/"
                                              +:+ name t)
                           +:+ ")")).
      { unfold create_link.
        rewrite (resolve_reference_direct _ _ _ Hf), Hk.
        now rewrite append_empty_r. }
      unfold namespace_type_heading. rewrite Hl.
      destruct (html_escape_clean (name t)) as [Hd1 Hd2].
      destruct (file_escape_clean ("../" +:+ namespace t +:+ "/" +:+ name t))
        as (Hp1 & Hp2 & _).
      change (Ok ("### "
                    +:+ html_escape
                          ("[" +:+ html_escape (name t) +:+ "]("
                             +:+ file_escape ("../" +:+ namespace t +:+ "/"
                                                +:+ name t)
                             +:+ ")")
                    +:+ nl)
              = Ok ("### [" +:+ html_escape (name t) +:+ "]("
                      +:+ file_escape ("../" +:+ namespace t +:+ "/" +:+ name t)
                      +:+ ")" +:+ nl)).
      rewrite html_escape_stable.
      * now rewrite !append_assoc.
      * now rewrite !contains_append, Hd1, Hp1.
      * now rewrite !contains_append, Hd2, Hp2.
    + intros type_counts Hg.
      destruct (get_type_path_part_known _ Hk) as [dir Hd].
      exists dir. split; [exact Hd |].
      unfold type_output_path. now rewrite Hg, Hd.
Qed.

Lemma namespace_page_heading_witness :
  namespace_type_heading (plain_config false (grouping_on 2)) foo_classes foo_A
  = Ok ("### [A&lt;T&gt;](../Foo/A`T`)" +:+ nl)
  /\ type_output_path (plain_config false (grouping_on 2)) foo_A
       (count_types foo_classes)
     = Ok "./out/Foo/Classes/A`T`.md".
Proof.
  destruct (namespace_page_heading (plain_config false (grouping_on 2))
              foo_classes foo_A) as [_ H].
  destruct (H eq_refl eq_refl) as [Hh Hp].
  split; [exact Hh |].
  destruct (Hp (count_types foo_classes) eq_refl) as (dir & Hd & Hpath).
  injection Hd as <-. exact Hpath.
Defined.
